(** * NamedTuple: the record-type factory of Lib/collections.py

    A shallow embedding of [NamedTuple(typename, s, verbose)] and of the class
    its template denotes, followed by the properties of the factory.

    Modelling conventions.
    - A Python [str] is a Rocq [string]: the character of code [c] is the
      code point U+00c, so the strings are those of code points below 256.
      White space is classified as [str.split] does on these code points.
      Letters and digits are classified for ASCII only ([str.isalnum] and
      the compiler also admit letters above 127 and normalise them in
      identifiers), so every statement that depends on validation or on
      compiling names is made for ASCII names, which [is_ascii] says.
    - A Python exception is a constructor of [exc]; a call that may raise
      returns a [result].
    - The objects held by instances are integers and [None]; none of them
      can be called.  The statements about [__replace__] and the
      constructor are made for names with which the generated code calls
      no element and no argument.
    - The class statement of the template is modelled by what it binds: the
      class namespace is an association list built in the order of the
      template's statements, the newest binding first.  Name mangling of
      class-private identifiers, the scopes in which the generated methods
      resolve [tuple], [dict], [list], [zip] and the type name, and the
      assignment of [__module__] by the factory are modelled.
    - Not modelled: the special methods that [tuple] itself provides
      ([__getitem__], [__eq__], [__iter__], [__init__], ...), which a field
      of such a name would replace, and the built-ins of the generated
      methods when the type is called [__builtins__].  The statements about
      generated classes are made for names that do not begin with two
      underscores, where none of this arises.
    - [NamedTuple_from] is the factory with its caller, of which line 62
      wants the frame and the [__name__], and records the line that
      raised; [NamedTuple] is the factory called from module code, where
      line 62 finds both.  [verbose] only prints the template and is left
      out. *)

From Stdlib Require Import String Ascii List Bool Arith ZArith Lia.
From Stdlib Require DecimalString.
Import ListNotations.

Open Scope string_scope.
Open Scope list_scope.

(** ** Exceptions and results *)

Inductive exc : Type :=
| ValueError
| SyntaxError
| TypeError
| AttributeError
| IndexError
| NameError
| RuntimeError
| KeyError.

Inductive result (A : Type) : Type :=
| Ok (a : A)
| Raise (e : exc).

Arguments Ok {A} a.
Arguments Raise {A} e.

Definition bind {A B : Type} (r : result A) (k : A -> result B) : result B :=
  match r with
  | Ok a => k a
  | Raise e => Raise e
  end.

Notation "x <- r ;; k" := (bind r (fun x => k))
  (at level 61, r at next level, right associativity).

(** ** Python string operations used by the factory *)

Module PyStr.

Definition code (c : ascii) : nat := nat_of_ascii c.

Definition between (lo hi : nat) (c : ascii) : bool :=
  Nat.leb lo (code c) && Nat.leb (code c) hi.

Definition isdigit_char (c : ascii) : bool := between 48 57 c.

Definition isalpha_char (c : ascii) : bool :=
  between 65 90 c || between 97 122 c.

Definition isalnum_char (c : ascii) : bool :=
  isalpha_char c || isdigit_char c.

(** White space as [str.split()] sees it: TAB, LF, VT, FF, CR, the four
    separators FS, GS, RS, US, the space, and above 127 the next-line
    control U+0085 and the no-break space U+00A0. *)
Definition isspace_char (c : ascii) : bool :=
  between 9 13 c || between 28 32 c || between 133 133 c || between 160 160 c.

(** [s.replace(old, new)] for a one-character [old] and [new]. *)
Fixpoint replace_char (old new : ascii) (s : string) : string :=
  match s with
  | EmptyString => EmptyString
  | String c s' =>
      String (if Ascii.eqb c old then new else c) (replace_char old new s')
  end.

(** [s.replace(old, '')] for a one-character [old]. *)
Fixpoint remove_char (old : ascii) (s : string) : string :=
  match s with
  | EmptyString => EmptyString
  | String c s' =>
      if Ascii.eqb c old then remove_char old s'
      else String c (remove_char old s')
  end.

(** [s.isalnum()]: at least one character, and all of them alphanumeric. *)
Fixpoint all_alnum (s : string) : bool :=
  match s with
  | EmptyString => true
  | String c s' => isalnum_char c && all_alnum s'
  end.

Definition isalnum (s : string) : bool :=
  match s with
  | EmptyString => false
  | String _ _ => all_alnum s
  end.

(** [s.split()]: the maximal runs of characters that are not white space,
    scanned from the left; [word] is the run being read. *)
Definition flush (word : string) : list string :=
  match word with
  | EmptyString => []
  | String _ _ => [word]
  end.

Fixpoint split_from (word s : string) : list string :=
  match s with
  | EmptyString => flush word
  | String c s' =>
      if isspace_char c then flush word ++ split_from EmptyString s'
      else split_from (word ++ String c EmptyString) s'
  end.

Definition split (s : string) : list string := split_from EmptyString s.

(** [sep.join(l)]. *)
Definition join (sep : string) (l : list string) : string :=
  String.concat sep l.

Definition startswith (p s : string) : bool := String.prefix p s.

Fixpoint endswith_rev (p s : list ascii) : bool :=
  match p, s with
  | [], _ => true
  | a :: p', b :: s' => Ascii.eqb a b && endswith_rev p' s'
  | _ :: _, [] => false
  end.

Definition endswith (p s : string) : bool :=
  endswith_rev (rev (list_ascii_of_string p)) (rev (list_ascii_of_string s)).

(** [s.lstrip(c)] for one character. *)
Fixpoint lstrip_char (c : ascii) (s : string) : string :=
  match s with
  | EmptyString => EmptyString
  | String a s' => if Ascii.eqb a c then lstrip_char c s' else s
  end.

(** [s[1:-1]]. *)
Definition drop_last (s : string) : string :=
  String.substring 0 (String.length s - 1) s.

Definition slice_1_m1 (s : string) : string :=
  match s with
  | EmptyString => EmptyString
  | String _ s' => drop_last s'
  end.

Definition mem (x : string) (l : list string) : bool :=
  existsb (String.eqb x) l.

Fixpoint nodup (l : list string) : bool :=
  match l with
  | [] => true
  | x :: l' => negb (mem x l') && nodup l'
  end.

End PyStr.

Import PyStr.

(** ** Values held by instances *)

(** Integers and [None] stand for the objects stored in a tuple. *)
Inductive value : Type :=
| VInt (z : Z)
| VNone.

(** [repr(v)], which is what the [%r] directive inserts. *)
Definition repr_value (v : value) : string :=
  match v with
  | VInt z => DecimalString.NilZero.string_of_int (Z.to_int z)
  | VNone => "None"
  end.

(** [fmt % args] for a tuple [args]; the template only produces [%r]. *)
Fixpoint pyformat (fmt : string) (args : list value) : result string :=
  match fmt with
  | EmptyString =>
      match args with
      | [] => Ok EmptyString
      | _ :: _ => Raise TypeError    (* not all arguments converted *)
      end
  | String c rest =>
      if Ascii.eqb c "%" then
        match rest with
        | EmptyString => Raise ValueError      (* incomplete format *)
        | String d rest' =>
            if Ascii.eqb d "r" then
              match args with
              | v :: args' =>
                  out <- pyformat rest' args' ;; Ok (repr_value v ++ out)%string
              | [] => Raise TypeError          (* not enough arguments *)
              end
            else if Ascii.eqb d "%" then
              out <- pyformat rest' args ;; Ok (String "%" out)
            else Raise ValueError              (* never generated *)
        end
      else out <- pyformat rest args ;; Ok (String c out)
  end.

(** A [dict] with [str] keys: an association list with distinct keys. *)
Definition pydict : Type := list (string * value).

Fixpoint dict_get (d : pydict) (k : string) : option value :=
  match d with
  | [] => None
  | (k', v) :: d' => if String.eqb k k' then Some v else dict_get d' k
  end.

Fixpoint dict_set (k : string) (v : value) (d : pydict) : pydict :=
  match d with
  | [] => [(k, v)]
  | (k', v') :: d' =>
      if String.eqb k k' then (k', v) :: d' else (k', v') :: dict_set k v d'
  end.

(** [dict(pairs)]: later pairs overwrite earlier ones. *)
Definition dict_of_pairs (pairs : list (string * value)) : pydict :=
  fold_left (fun d kv => dict_set (fst kv) (snd kv) d) pairs [].

(** ** The generated class *)

(** What a name of the class namespace is bound to.  The three functions
    carry the text the template substituted into them. *)
Inductive attr : Type :=
| AModule                               (* the module name, a str *)
| ADoc (doc : string)                   (* the class docstring *)
| ASlots                                (* [__slots__ = ()] *)
| AFields (names : list string)         (* [__fields__ = field_names] *)
| ANew (params : list string)           (* [def __new__(cls, params)] *)
| ARepr (fmt : string)                  (* [def __repr__]: [fmt % self] *)
| AReplace (typename : string) (names : list string)
| AProperty (i : nat).                  (* [property(itemgetter(i))] *)

Definition namespace : Type := list (string * attr).

Fixpoint ns_get (d : namespace) (k : string) : option attr :=
  match d with
  | [] => None
  | (k', a) :: d' => if String.eqb k k' then Some a else ns_get d' k
  end.

Definition ns_has (d : namespace) (k : string) : bool :=
  match ns_get d k with Some _ => true | None => false end.

Record record_class : Type := {
  cls_name : string;
  cls_dict : namespace
}.

(** Private-name mangling inside [class cname]: an identifier that begins
    with two underscores and does not end with two is rewritten, unless the
    class name consists of underscores only. *)
Definition mangle (cname name : string) : string :=
  if startswith "__" name && negb (endswith "__" name) then
    match lstrip_char "_" cname with
    | EmptyString => name
    | String _ _ as stripped => ("_" ++ stripped ++ name)%string
    end
  else name.

Definition isidentifier (s : string) : bool :=
  match s with
  | EmptyString => false
  | String c s' =>
      (isalpha_char c || Ascii.eqb c "_")
      && all_alnum (remove_char "_" s')
  end.

(** [repr] of a name that holds no quote, backslash or control character,
    and of a tuple of such names. *)
Definition repr_str (s : string) : string := ("'" ++ s ++ "'")%string.

Definition repr_tuple (names : list string) : string :=
  match names with
  | [x] => ("(" ++ repr_str x ++ ",)")%string
  | _ => ("(" ++ join ", " (map repr_str names) ++ ")")%string
  end.

(** Lines 41 and 42. *)
Definition argtxt (field_names : list string) : string :=
  slice_1_m1 (remove_char "'" (repr_tuple field_names)).

Definition reprtxt (field_names : list string) : string :=
  join ", " (map (fun name => (name ++ "=%r")%string) field_names).

(** What the running interpreter contributes: the names its compiler
    refuses to bind (the keywords of its grammar, [None], [__debug__], ...),
    the number of parameters it allows a function, if it has a limit, and
    whether [sys] has [_getframe]. *)
Record host : Type := {
  reserved : string -> bool;
  max_params : option nat;
  has_getframe : bool
}.

Definition within (limit : option nat) (n : nat) : bool :=
  match limit with
  | Some m => Nat.leb n m
  | None => true
  end.

(** The compiler's part of [exec(template, m)]: the type name and every
    field name stand where the grammar wants an identifier, and the
    parameters of [__new__], mangled, must be distinct and not too many. *)
Definition compiles (h : host) (typename : string)
    (field_names : list string) : bool :=
  forallb (fun n => isidentifier n && negb (reserved h n))
          (typename :: field_names)
  && nodup ("cls" :: map (mangle typename) field_names)
  && within (max_params h) (S (length field_names)).

(** Lines 54 and 55, as the class body runs them: [property] and
    [itemgetter] are looked up in the class namespace first, where an
    earlier field of that name has rebound them to a property object. *)
Fixpoint bind_properties (typename : string) (i : nat)
    (names : list string) (d : namespace) : result namespace :=
  match names with
  | [] => Ok d
  | name :: rest =>
      if ns_has d "property" || ns_has d "itemgetter" then Raise TypeError
      else bind_properties typename (S i) rest
             ((mangle typename name, AProperty i) :: d)
  end.

(** The bindings lines 54 and 55 add, in the order of the fields. *)
Fixpoint accessors (typename : string) (i : nat) (names : list string)
    : namespace :=
  match names with
  | [] => []
  | name :: rest =>
      (mangle typename name, AProperty i) :: accessors typename (S i) rest
  end.

(** The class body of the template, statement by statement: the names
    bound before the loop of line 54 (newest first; [__module__] is bound
    by the class statement itself), then the properties. *)
Definition template_attrs (typename : string) (field_names : list string)
    : namespace :=
  let params := map (mangle typename) field_names in
  let fmt := (typename ++ "(" ++ reprtxt field_names ++ ")")%string in
  let doc := (typename ++ "(" ++ argtxt field_names ++ ")")%string in
  [ ("__replace__", AReplace typename field_names);
    ("__repr__", ARepr fmt);
    ("__new__", ANew params);
    ("__fields__", AFields field_names);
    ("__slots__", ASlots);
    ("__doc__", ADoc doc);
    ("__module__", AModule) ].

Definition class_body (typename : string) (field_names : list string)
    : result namespace :=
  bind_properties typename 0 field_names
    (template_attrs typename field_names).

(** [exec(template, m)] followed by [m[typename]]: compile, run the class
    body, create the type (which reads [__slots__]). *)
Definition exec_template (h : host) (typename : string)
    (field_names : list string) : result record_class :=
  if negb (compiles h typename field_names) then Raise SyntaxError
  else
    d <- class_body typename field_names ;;
    match ns_get d "__slots__" with
    | Some ASlots => Ok {| cls_name := typename; cls_dict := d |}
    | _ => Raise TypeError
    end.

(** ** The factory *)

(** The second argument: the source calls [s.replace], which a [str] has
    and a list or tuple of names has not. *)
Inductive field_spec : Type :=
| SpecStr (s : string)
| SpecSeq (names : list string).

(** Line 38. *)
Definition field_names (s : string) : list string :=
  split (replace_char "," " " s).

Definition parse_fields (s : field_spec) : result (list string) :=
  match s with
  | SpecStr s => Ok (field_names s)
  | SpecSeq _ => Raise AttributeError
  end.

(** Lines 39 and 40. *)
Definition check_names (typename : string) (field_names : list string)
    : result unit :=
  if isalnum (remove_char "_" (join "" (typename :: field_names)))
  then Ok tt
  else Raise ValueError.

(** Lines 61 and 62: [result.__module__ = ...] rebinds the name in the
    class. *)
Definition set_module (T : record_class) : record_class :=
  {| cls_name := cls_name T;
     cls_dict := ("__module__", AModule) :: cls_dict T |}.

Definition NamedTuple (h : host) (typename : string) (s : field_spec)
    : result record_class :=
  field_names <- parse_fields s ;;
  _ <- check_names typename field_names ;;
  T <- exec_template h typename field_names ;;
  Ok (if has_getframe h then set_module T else T).

(** ** Instances and the generated methods *)

(** An instance is the tuple of its elements. *)
Definition instance : Type := list value.

Fixpoint collect (named : list string) (kwargs : pydict)
    : option (list value) :=
  match named with
  | [] => Some []
  | k :: named' =>
      match dict_get kwargs k, collect named' kwargs with
      | Some v, Some vs => Some (v :: vs)
      | _, _ => None
      end
  end.

(** Argument binding of [def __new__(cls, params)], [cls] already bound:
    positional arguments fill the parameters from the left, every keyword
    must name one of the remaining parameters, and none may stay unbound. *)
Definition bind_args (params : list string) (args : list value)
    (kwargs : pydict) : result (list value) :=
  if Nat.ltb (length params) (length args) then Raise TypeError
  else
    let named := skipn (length args) params in
    if negb (forallb (fun kv => mem (fst kv) named) kwargs)
    then Raise TypeError
    else match collect named kwargs with
         | Some vs => Ok (args ++ vs)
         | None => Raise TypeError
         end.

(** Calling something that is not a function: the property found under a
    method name hands back element [i], which is not callable. *)
Definition call_property {A : Type} (self : instance) (i : nat) : result A :=
  match nth_error self i with
  | Some _ => Raise TypeError
  | None => Raise IndexError
  end.

(** Calling the class with positional [args] and keyword [kwargs]: the
    type looks [__new__] up in the class and calls it.  The body of the
    template's [__new__] is [tuple.__new__(cls, (params))], where [tuple] is
    a parameter when a field has that name (an integer or [None], whose
    [__new__] refuses the class), else the global of that name, which is
    the generated class itself when the type is called [tuple] (the call
    then recurses for one field and has the wrong arity otherwise), else
    the built-in. *)
Definition call_class (T : record_class) (args : list value)
    (kwargs : pydict) : result instance :=
  match ns_get (cls_dict T) "__new__" with
  | Some (ANew params) =>
      vs <- bind_args params args kwargs ;;
      if mem "tuple" params then Raise TypeError
      else if String.eqb (cls_name T) "tuple" then
        if Nat.eqb (length params) 1 then Raise RuntimeError
        else Raise TypeError
      else Ok vs
  | _ => Raise TypeError
  end.

(** [repr(self)]. *)
Definition py_repr (T : record_class) (self : instance) : result string :=
  match ns_get (cls_dict T) "__repr__" with
  | Some (ARepr fmt) => pyformat fmt self
  | Some (AProperty i) => call_property self i
  | _ => Raise TypeError
  end.

(** The body of [__replace__]: the type name, called with the keywords
    [dict(list(zip(names, self)) + [(field, value)])].
    The type name is an identifier inside a method of the class: it is a
    parameter when it is [self], [field] or [value] (none of them callable),
    it is mangled when it is class-private (and then names no global), and
    when it is [dict], [list] or [zip] the generated class stands in the
    expression where the built-in was meant (each of which ends in a
    [TypeError]). *)
Definition replace_body (T : record_class) (typename : string)
    (names : list string) (self : instance) (field : string) (v : value)
    : result instance :=
  let callee := mangle typename typename in
  if mem callee ["self"; "field"; "value"] then Raise TypeError
  else if negb (String.eqb callee typename) then Raise NameError
  else if mem typename ["dict"; "list"; "zip"] then Raise TypeError
  else call_class T [] (dict_of_pairs (combine names self ++ [(field, v)])).

(** [self.__replace__(field, value)]. *)
Definition py_replace (T : record_class) (self : instance) (field : string)
    (v : value) : result instance :=
  match ns_get (cls_dict T) "__replace__" with
  | Some (AReplace typename names) =>
      replace_body T typename names self field v
  | Some (AProperty i) => call_property self i
  | _ => Raise TypeError
  end.

(** What an attribute access on an instance yields. *)
Inductive obj : Type :=
| Elem (v : value)        (* an element of the tuple *)
| ClassAttr (a : attr)    (* an attribute of the generated class *)
| Inherited.              (* the lookup goes on in [tuple] *)

(** [self[i]]. *)
Definition getitem (self : instance) (i : nat) : result obj :=
  match nth_error self i with
  | Some v => Ok (Elem v)
  | None => Raise IndexError
  end.

(** The names [tuple] may answer: special names, [count] and [index]. *)
Definition tuple_attr (name : string) : bool :=
  (startswith "__" name && endswith "__" name) || mem name ["count"; "index"].

(** [getattr(self, name)]: the class namespace first, where a property
    calls its [itemgetter(i)] on the instance; a name the class does not
    bind is left to [tuple], which has no attribute of an ordinary name. *)
Definition getattr (T : record_class) (self : instance) (name : string)
    : result obj :=
  match ns_get (cls_dict T) name with
  | Some (AProperty i) => getitem self i
  | Some a => Ok (ClassAttr a)
  | None => if tuple_attr name then Ok Inherited else Raise AttributeError
  end.

(** CPython 3.0: its keywords and the names it refuses to assign, at most
    255 parameters, frame introspection. *)
Definition kwlist : list string :=
  [ "False"; "None"; "True"; "and"; "as"; "assert"; "break"; "class";
    "continue"; "def"; "del"; "elif"; "else"; "except"; "finally"; "for";
    "from"; "global"; "if"; "import"; "in"; "is"; "lambda"; "nonlocal";
    "not"; "or"; "pass"; "raise"; "return"; "try"; "while"; "with";
    "yield"; "__debug__" ].

Definition cpython : host :=
  {| reserved := fun name => mem name kwlist;
     max_params := Some 255;
     has_getframe := true |}.

(** The class a successful call returns. *)
Definition the_class (r : result record_class) : record_class :=
  match r with
  | Ok T => T
  | Raise _ => {| cls_name := EmptyString; cls_dict := [] |}
  end.

(** [Point = NamedTuple('Point', 'x y')], the class of the docstring. *)
Definition Point : record_class :=
  the_class (NamedTuple cpython "Point" (SpecStr "x y")).

(** Classes of two fields, and classes whose names meet the names of the
    generated code. *)
Definition T_xy : record_class :=
  the_class (NamedTuple cpython "T" (SpecStr "x y")).

Definition T_private : record_class :=
  the_class (NamedTuple cpython "T" (SpecStr "__x")).

Definition T_tuple : record_class :=
  the_class (NamedTuple cpython "T" (SpecStr "tuple")).

Definition value_xy : record_class :=
  the_class (NamedTuple cpython "value" (SpecStr "x y")).

Definition T_repr : record_class :=
  the_class (NamedTuple cpython "T" (SpecStr "__repr__")).

Definition T_fields : record_class :=
  the_class (NamedTuple cpython "T" (SpecStr "__fields__ x")).

(** ** Vocabulary of the statements *)

(** The string the validation of line 39 tests. *)
Definition checked_text (typename : string) (names : list string) : string :=
  remove_char "_" (join "" (typename :: names)).

(** Entirely alphanumeric, as [str.isalnum] means it: some character, and
    every character a letter or a digit. *)
Definition entirely_alphanumeric (s : string) : Prop :=
  s <> EmptyString /\
  forall c, In c (list_ascii_of_string s) -> isalnum_char c = true.

Definition starts_with_digit (name : string) : bool :=
  match name with
  | EmptyString => false
  | String c _ => isdigit_char c
  end.

Fixpoint all_digits (s : string) : bool :=
  match s with
  | EmptyString => true
  | String c s' => isdigit_char c && all_digits s'
  end.

Definition purely_numeric (name : string) : bool :=
  match name with
  | EmptyString => false
  | String _ _ => all_digits name
  end.

(** A name that does not begin with two underscores: neither class-private
    nor one of the special names. *)
Definition plain (name : string) : bool := negb (startswith "__" name).

(** [p] with element [j] replaced by [v]. *)
Definition update (p : instance) (j : nat) (v : value) : instance :=
  firstn j p ++ v :: skipn (S j) p.

(** Spellings of a field specification: a character that separates names,
    a name, and a text made of names each followed by a separator, which
    only the last name may lack. *)
Definition issep_char (c : ascii) : bool :=
  isspace_char c || Ascii.eqb c ",".

Fixpoint all_chars (f : ascii -> bool) (s : string) : bool :=
  match s with
  | EmptyString => true
  | String c s' => f c && all_chars f s'
  end.

Definition nonempty (s : string) : bool :=
  match s with EmptyString => false | String _ _ => true end.

Definition is_word (w : string) : bool :=
  nonempty w && all_chars (fun c => negb (issep_char c)) w.

Fixpoint spell (items : list (string * string)) : string :=
  match items with
  | [] => EmptyString
  | (name, sep) :: rest => (name ++ sep ++ spell rest)%string
  end.

Fixpoint well_spelled (items : list (string * string)) : bool :=
  match items with
  | [] => true
  | (name, sep) :: rest =>
      is_word name && all_chars issep_char sep
      && (nonempty sep || match rest with [] => true | _ :: _ => false end)
      && well_spelled rest
  end.

(** [name=repr(value)], the rendering of one field. *)
Definition field_repr (nv : string * value) : string :=
  (fst nv ++ "=" ++ repr_value (snd nv))%string.

Fixpoint percent_free (s : string) : bool :=
  match s with
  | EmptyString => true
  | String c s' => negb (Ascii.eqb c "%") && percent_free s'
  end.

(** The names the body of [__replace__] gives another meaning than the
    generated class or the built-in it wants. *)
Definition rebound_in_replace : list string :=
  ["self"; "field"; "value"; "dict"; "list"; "zip"].

(** ** The factory and its caller *)

(** The names for which the classification of characters above is that of
    Python: every character is below 128. *)
Definition is_ascii (s : string) : bool :=
  all_chars (fun c => Nat.ltb (code c) 128) s.

(** Where the factory is called from.  Line 62 reads
    [_sys._getframe(1).f_globals['__name__']]: [_getframe(1)] raises
    [ValueError] when no Python frame called the factory, and the
    subscript raises [KeyError] when the caller's globals do not bind
    [__name__]. *)
Inductive caller : Type :=
| Outermost
| Frame (has_name : bool).

Definition caller_name (c : caller) : result unit :=
  match c with
  | Outermost => Raise ValueError
  | Frame true => Ok tt
  | Frame false => Raise KeyError
  end.

(** The outcome of a call of the factory: the class it returns, or the
    line of the source that raised and the exception. *)
Inductive outcome : Type :=
| Returned (T : record_class)
| Failed (line : nat) (e : exc).

Definition NamedTuple_from (c : caller) (h : host) (typename : string)
    (s : field_spec) : outcome :=
  match parse_fields s with
  | Raise e => Failed 38 e
  | Ok field_names =>
      match check_names typename field_names with
      | Raise e => Failed 40 e
      | Ok _ =>
          match exec_template h typename field_names with
          | Raise e => Failed 59 e
          | Ok T =>
              if has_getframe h then
                match caller_name c with
                | Raise e => Failed 62 e
                | Ok _ => Returned (set_module T)
                end
              else Returned T
          end
      end
  end.

(** An outcome without the line. *)
Definition erase (o : outcome) : result record_class :=
  match o with
  | Returned T => Ok T
  | Failed _ e => Raise e
  end.

(** ** Vocabulary of the further statements *)

(** A field other than the last is called [property] or [itemgetter]. *)
Definition rebinds_builder (names : list string) : bool :=
  existsb (fun n => mem n ["property"; "itemgetter"]) (removelast names).

(** The class the factory returns when it returns one. *)
Definition generated_class (h : host) (typename : string)
    (names : list string) : record_class :=
  {| cls_name := typename;
     cls_dict :=
       (if has_getframe h then [("__module__", AModule)] else [])
       ++ rev (accessors typename 0 names)
       ++ template_attrs typename names |}.

(** The errors of the factory in the order in which it meets them. *)
Definition factory_outcome (h : host) (typename : string)
    (names : list string) : result record_class :=
  if negb (isalnum (checked_text typename names)) then Raise ValueError
  else if negb (compiles h typename names) then Raise SyntaxError
  else if rebinds_builder names || mem "__slots__" names
       then Raise TypeError
  else Ok (generated_class h typename names).

(** The same with the caller and the lines: validation at line 40, [exec]
    at line 59, the caller's frame and [__name__] at line 62. *)
Definition outcome_from (c : caller) (h : host) (typename : string)
    (names : list string) : outcome :=
  if negb (isalnum (checked_text typename names)) then Failed 40 ValueError
  else if negb (compiles h typename names) then Failed 59 SyntaxError
  else if rebinds_builder names || mem "__slots__" names
       then Failed 59 TypeError
  else if has_getframe h then
    match c with
    | Outermost => Failed 62 ValueError
    | Frame false => Failed 62 KeyError
    | Frame true => Returned (generated_class h typename names)
    end
  else Returned (generated_class h typename names).

(** [sep.join(names)] written with a separator after each name but the
    last. *)
Fixpoint separated (sep : string) (names : list string)
    : list (string * string) :=
  match names with
  | [] => []
  | [x] => [(x, EmptyString)]
  | x :: rest => (x, sep) :: separated sep rest
  end.

(** ** Properties of the string operations *)

Lemma isalnum_spec (s : string) :
  isalnum s = true <-> entirely_alphanumeric s.
Proof.
  assert (A : forall t, all_alnum t = true <->
            forall c, In c (list_ascii_of_string t) -> isalnum_char c = true).
  { induction t as [|a t IH]; simpl.
    - split; [intros _ c [] | reflexivity].
    - rewrite andb_true_iff, IH. split.
      + intros [Ha Ht] c [<- | Hc]; auto.
      + intros H; split; [apply H; now left|].
        intros c Hc; apply H; now right. }
  unfold entirely_alphanumeric. destruct s as [|a t].
  - simpl. split; [discriminate | intros [H _]; now elim H].
  - unfold isalnum. rewrite A. split; [|tauto].
    intros H; split; [discriminate | exact H].
Qed.

(** ** The factory: which error, and when *)

Section Factory.

Variable h : host.

Lemma check_names_ok (typename : string) (names : list string) :
  check_names typename names = Ok tt <->
  isalnum (checked_text typename names) = true.
Proof.
  unfold check_names, checked_text.
  destruct (isalnum _); split; intros H; try reflexivity; discriminate.
Qed.

Lemma check_names_raises (typename : string) (names : list string) (e : exc) :
  check_names typename names = Raise e ->
  e = ValueError /\ isalnum (checked_text typename names) = false.
Proof.
  unfold check_names, checked_text.
  destruct (isalnum _); intros H; inversion H; auto.
Qed.

Lemma bind_properties_raises (typename : string) (names : list string) :
  forall i d e,
    bind_properties typename i names d = Raise e -> e = TypeError.
Proof.
  induction names as [|name rest IH]; simpl; intros i d e H.
  - discriminate.
  - destruct (ns_has d "property" || ns_has d "itemgetter").
    + now inversion H.
    + eapply IH; eassumption.
Qed.

Lemma exec_template_raises (typename : string) (names : list string) (e : exc) :
  exec_template h typename names = Raise e ->
  e = SyntaxError \/ e = TypeError.
Proof.
  unfold exec_template, class_body.
  destruct (compiles h typename names); cbn [negb].
  - destruct (bind_properties _ _ _ _) as [d|e'] eqn:B; simpl.
    + destruct (ns_get d "__slots__") as [[]|]; intros H; inversion H; auto.
    + intros H; inversion H; subst. right.
      eapply bind_properties_raises; eassumption.
  - intros H; inversion H; auto.
Qed.

(** The factory on a string specification, step by step. *)
Lemma NamedTuple_str (typename s : string) :
  NamedTuple h typename (SpecStr s) =
  if isalnum (checked_text typename (field_names s)) then
    T <- exec_template h typename (field_names s) ;;
    Ok (if has_getframe h then set_module T else T)
  else Raise ValueError.
Proof.
  unfold NamedTuple, parse_fields, check_names, checked_text. simpl.
  destruct (isalnum _); reflexivity.
Qed.

Lemma NamedTuple_not_compiling (typename s : string) :
  isalnum (checked_text typename (field_names s)) = true ->
  compiles h typename (field_names s) = false ->
  NamedTuple h typename (SpecStr s) = Raise SyntaxError.
Proof.
  intros A C. rewrite NamedTuple_str, A. unfold exec_template. now rewrite C.
Qed.

End Factory.

Lemma mem_In (x : string) (l : list string) : mem x l = true <-> In x l.
Proof.
  unfold mem. rewrite existsb_exists. split.
  - intros [y [Hy E]]. apply String.eqb_eq in E. now subst.
  - intros H. exists x. split; [exact H | apply String.eqb_refl].
Qed.

Lemma nth_error_lt {A : Type} (l : list A) (j : nat) (x : A) :
  nth_error l j = Some x -> j < length l.
Proof. intros E. apply nth_error_Some. congruence. Qed.

Lemma mem_cons (x y : string) (l : list string) :
  mem x (y :: l) = String.eqb x y || mem x l.
Proof. reflexivity. Qed.

Lemma nodup_NoDup (l : list string) : nodup l = true <-> NoDup l.
Proof.
  induction l as [|x l IH]; simpl.
  - split; [constructor | reflexivity].
  - rewrite andb_true_iff, negb_true_iff, IH. split.
    + intros [M N]. constructor; [|exact N].
      intros I. apply mem_In in I. congruence.
    + intros N. inversion N as [|? ? M N']; subst. split; [|exact N'].
      destruct (mem x l) eqn:E; [|reflexivity].
      apply mem_In in E. contradiction.
Qed.

Lemma nodup_map_false (f : string -> string) (l : list string) :
  nodup l = false -> nodup (map f l) = false.
Proof.
  intros H. destruct (nodup (map f l)) eqn:E; [|reflexivity].
  apply nodup_NoDup in E. apply NoDup_map_inv in E.
  apply nodup_NoDup in E. congruence.
Qed.

Lemma digit_not_identifier_start (c : ascii) :
  isdigit_char c = true -> isalpha_char c || Ascii.eqb c "_" = false.
Proof.
  destruct c as [[] [] [] [] [] [] [] []]; vm_compute; congruence.
Qed.

Lemma starts_with_digit_not_identifier (name : string) :
  starts_with_digit name = true -> isidentifier name = false.
Proof.
  destruct name as [|c rest]; simpl; [discriminate|].
  intros D. now rewrite (digit_not_identifier_start c D).
Qed.

Lemma purely_numeric_starts_with_digit (name : string) :
  purely_numeric name = true -> starts_with_digit name = true.
Proof.
  destruct name as [|c rest]; simpl; [discriminate|].
  intros H. now apply andb_true_iff in H.
Qed.

Lemma compiles_false_of_field (h : host) (typename name : string)
    (names : list string) :
  In name names ->
  isidentifier name && negb (reserved h name) = false ->
  compiles h typename names = false.
Proof.
  intros I B. unfold compiles.
  destruct (forallb _ (typename :: names)) eqn:F; [|reflexivity].
  rewrite forallb_forall in F.
  specialize (F name (or_intror I)). simpl in F. congruence.
Qed.

(** The factory called from module code is [NamedTuple]. *)
Lemma NamedTuple_from_module (h : host) (typename : string) (s : field_spec) :
  erase (NamedTuple_from (Frame true) h typename s) = NamedTuple h typename s.
Proof.
  unfold NamedTuple_from, NamedTuple.
  destruct (parse_fields s) as [names|e]; [|reflexivity]. cbn [bind].
  destruct (check_names typename names) as [[]|e]; [|reflexivity]. cbn [bind].
  destruct (exec_template h typename names) as [T|e]; [|reflexivity].
  cbn [bind caller_name]. now destruct (has_getframe h).
Qed.

(** The factory with its caller on a string specification, step by step. *)
Lemma NamedTuple_from_str (c : caller) (h : host) (typename s : string) :
  NamedTuple_from c h typename (SpecStr s) =
  if isalnum (checked_text typename (field_names s)) then
    match exec_template h typename (field_names s) with
    | Raise e => Failed 59 e
    | Ok T =>
        if has_getframe h then
          match c with
          | Outermost => Failed 62 ValueError
          | Frame false => Failed 62 KeyError
          | Frame true => Returned (set_module T)
          end
        else Returned T
    end
  else Failed 40 ValueError.
Proof.
  unfold NamedTuple_from, parse_fields, check_names, checked_text.
  destruct (isalnum _); [|reflexivity].
  destruct (exec_template _ _ _); [|reflexivity].
  destruct (has_getframe h); [|reflexivity]. now destruct c as [|[]].
Qed.


(** C10.  When the validated text is entirely alphanumeric the validation
    passes whatever the field names are: the factory does not raise
    [ValueError], an error it raises is the one raised by evaluating the
    generated class source, and a field name that is purely numeric, begins
    with a digit or is a reserved word makes that evaluation raise
    [SyntaxError]. *)
Theorem validation_accepts_unusable_names (h : host) (typename s : string) :
  entirely_alphanumeric (checked_text typename (field_names s)) ->
  check_names typename (field_names s) = Ok tt /\
  NamedTuple h typename (SpecStr s) <> Raise ValueError /\
  (forall e, NamedTuple h typename (SpecStr s) = Raise e ->
             exec_template h typename (field_names s) = Raise e) /\
  (forall name, In name (field_names s) ->
     purely_numeric name = true \/ starts_with_digit name = true \/
     reserved h name = true ->
     NamedTuple h typename (SpecStr s) = Raise SyntaxError /\
     exec_template h typename (field_names s) = Raise SyntaxError).
Proof.
  intros A. apply isalnum_spec in A.
  assert (E : forall e, NamedTuple h typename (SpecStr s) = Raise e ->
                        exec_template h typename (field_names s) = Raise e).
  { intros e. rewrite NamedTuple_str, A.
    destruct (exec_template _ _ _); simpl; congruence. }
  assert (C : forall name, In name (field_names s) ->
     purely_numeric name = true \/ starts_with_digit name = true \/
     reserved h name = true ->
     compiles h typename (field_names s) = false).
  { intros name I H. apply compiles_false_of_field with (name := name);
      [assumption|].
    destruct H as [P | [D | R]].
    - apply purely_numeric_starts_with_digit,
        starts_with_digit_not_identifier in P. now rewrite P.
    - apply starts_with_digit_not_identifier in D. now rewrite D.
    - rewrite R. apply andb_false_r. }
  split; [|split; [|split]].
  - now apply check_names_ok.
  - intros H. apply E, exec_template_raises in H. destruct H; discriminate.
  - exact E.
  - intros name I H. split.
    + apply NamedTuple_not_compiling; [exact A | eauto].
    + unfold exec_template. now rewrite (C name I H).
Qed.

(** C8, amended.  For ASCII names, a field specification that repeats a
    field name makes the factory fail: with [ValueError] when the joined
    names do not pass the validation of line 39 (a character that is
    neither alphanumeric nor an underscore, or nothing but underscores),
    and otherwise with the [SyntaxError] of compiling the generated source,
    whose [__new__] would have two parameters of one name. *)
Theorem duplicate_field_error (h : host) (typename s : string) :
  forallb is_ascii (typename :: field_names s) = true ->
  nodup (field_names s) = false ->
  NamedTuple h typename (SpecStr s) =
  Raise (if isalnum (checked_text typename (field_names s))
         then SyntaxError else ValueError).
Proof.
  intros _ D. destruct (isalnum _) eqn:A.
  - apply NamedTuple_not_compiling; [exact A|].
    unfold compiles. simpl nodup.
    rewrite (nodup_map_false (mangle typename) _ D).
    now rewrite !andb_false_r.
  - now rewrite NamedTuple_str, A.
Qed.

(** ** The namespace of a generated class *)

Lemma ns_get_app (l1 l2 : namespace) (k : string) :
  ns_get (l1 ++ l2) k =
  match ns_get l1 k with Some a => Some a | None => ns_get l2 k end.
Proof.
  induction l1 as [|[k' a] l1 IH]; simpl; [reflexivity|].
  destruct (String.eqb k k'); [reflexivity | exact IH].
Qed.

Lemma ns_get_absent (l : namespace) (k : string) :
  ~ In k (map fst l) -> ns_get l k = None.
Proof.
  induction l as [|[k' a] l IH]; simpl; intros N; [reflexivity|].
  destruct (String.eqb_spec k k') as [->|_]; [elim N; now left|].
  apply IH. intros I. apply N. now right.
Qed.

Lemma accessors_keys (typename : string) (names : list string) :
  forall i, map fst (accessors typename i names) = map (mangle typename) names.
Proof.
  induction names as [|name rest IH]; simpl; intros i; [reflexivity|].
  now rewrite IH.
Qed.

Lemma bind_properties_ok (typename : string) (names : list string) :
  forall i d d',
    bind_properties typename i names d = Ok d' ->
    d' = rev (accessors typename i names) ++ d.
Proof.
  induction names as [|name rest IH]; simpl; intros i d d' H.
  - now inversion H.
  - destruct (ns_has d "property" || ns_has d "itemgetter"); [discriminate|].
    apply IH in H. subst d'. now rewrite <- app_assoc.
Qed.

(** The newest binding of the key of field [j] is its own property. *)
Lemma ns_get_accessor (typename : string) (names : list string) :
  forall i j name d,
    NoDup (map (mangle typename) names) ->
    nth_error names j = Some name ->
    ns_get (rev (accessors typename i names) ++ d) (mangle typename name)
    = Some (AProperty (i + j)).
Proof.
  induction names as [|x rest IH]; intros i j name d N E.
  - destruct j; discriminate.
  - simpl in N. inversion N as [|? ? Nx Nrest]; subst.
    simpl accessors. simpl rev. rewrite <- app_assoc. destruct j as [|j].
    + simpl in E. inversion E; subst x.
      rewrite ns_get_app, ns_get_absent.
      * simpl. rewrite String.eqb_refl. f_equal. f_equal. lia.
      * rewrite map_rev, accessors_keys, <- in_rev. exact Nx.
    + simpl in E. rewrite (IH (S i) j name _ Nrest E). f_equal. f_equal. lia.
Qed.

Lemma ns_get_not_accessor (typename : string) (names : list string)
    (i : nat) (d : namespace) (k : string) :
  ~ In k (map (mangle typename) names) ->
  ns_get (rev (accessors typename i names) ++ d) k = ns_get d k.
Proof.
  intros N. rewrite ns_get_app, ns_get_absent; [reflexivity|].
  now rewrite map_rev, accessors_keys, <- in_rev.
Qed.

Lemma mangle_plain (typename name : string) :
  plain name = true -> mangle typename name = name.
Proof.
  unfold plain, mangle. intros P. apply negb_true_iff in P. now rewrite P.
Qed.

Lemma map_mangle_plain (typename : string) (names : list string) :
  forallb plain names = true -> map (mangle typename) names = names.
Proof.
  induction names as [|x rest IH]; simpl; [reflexivity|].
  intros H. apply andb_true_iff in H as [P R].
  now rewrite (mangle_plain _ _ P), (IH R).
Qed.

(** What a successful call of the factory has established. *)
Lemma NamedTuple_ok (h : host) (typename : string) (s : field_spec)
    (T : record_class) :
  NamedTuple h typename s = Ok T ->
  exists str pre,
    s = SpecStr str /\
    isalnum (checked_text typename (field_names str)) = true /\
    compiles h typename (field_names str) = true /\
    cls_name T = typename /\
    (pre = [] \/ pre = [("__module__", AModule)]) /\
    cls_dict T = pre ++ rev (accessors typename 0 (field_names str))
                     ++ template_attrs typename (field_names str).
Proof.
  destruct s as [str|l]; [|discriminate].
  rewrite NamedTuple_str. destruct (isalnum _) eqn:A; [|discriminate].
  unfold exec_template, class_body.
  destruct (compiles h typename (field_names str)) eqn:C; [|discriminate].
  cbn [negb].
  destruct (bind_properties _ _ _ _) as [d|e] eqn:B; [|discriminate].
  apply bind_properties_ok in B. cbn [bind].
  destruct (ns_get d "__slots__") as [[]|]; try discriminate.
  cbn [bind]. intros H. inversion H; subst T. clear H.
  exists str. destruct (has_getframe h).
  - exists [("__module__", AModule)]. simpl. rewrite <- B. auto 10.
  - exists []. simpl. rewrite <- B. auto 10.
Qed.

(** ** Dictionaries and argument binding *)

Lemma dict_get_set (k k' : string) (v : value) (d : pydict) :
  dict_get (dict_set k v d) k' =
  if String.eqb k' k then Some v else dict_get d k'.
Proof.
  induction d as [|[k0 v0] d IH]; simpl.
  - reflexivity.
  - destruct (String.eqb_spec k k0) as [->|N]; simpl.
    + destruct (String.eqb k' k0); reflexivity.
    + rewrite IH. destruct (String.eqb_spec k' k0) as [->|_]; [|reflexivity].
      destruct (String.eqb_spec k0 k); congruence.
Qed.

Lemma dict_set_keys (k : string) (v : value) (d : pydict) (x : string) :
  In x (map fst (dict_set k v d)) -> x = k \/ In x (map fst d).
Proof.
  induction d as [|[k0 v0] d IH]; simpl.
  - intros [<-|[]]. now left.
  - destruct (String.eqb k k0); simpl; intros [<-|I]; auto.
    destruct (IH I); auto.
Qed.

Lemma dict_fold_keys (pairs : list (string * value)) :
  forall (d : pydict) (x : string),
    In x (map fst (fold_left (fun d kv => dict_set (fst kv) (snd kv) d)
                             pairs d)) ->
    In x (map fst pairs) \/ In x (map fst d).
Proof.
  induction pairs as [|[k v] pairs IH]; simpl; intros d x I; [now right|].
  destruct (IH _ _ I) as [H|H]; [now left; right|].
  apply dict_set_keys in H. destruct H as [->|H]; auto.
Qed.

Lemma dict_of_pairs_keys (pairs : list (string * value)) (x : string) :
  In x (map fst (dict_of_pairs pairs)) -> In x (map fst pairs).
Proof.
  intros I. apply dict_fold_keys in I. destruct I as [I|[]]. exact I.
Qed.

(** Appending one more pair to the pairs of a [dict] call overrides. *)
Lemma dict_of_pairs_snoc (pairs : list (string * value)) (k : string)
    (v : value) (x : string) :
  dict_get (dict_of_pairs (pairs ++ [(k, v)])) x =
  if String.eqb x k then Some v else dict_get (dict_of_pairs pairs) x.
Proof.
  unfold dict_of_pairs. rewrite fold_left_app. simpl. apply dict_get_set.
Qed.

Lemma combine_app {A B : Type} (l1 l2 : list A) (m1 m2 : list B) :
  length l1 = length m1 ->
  combine (l1 ++ l2) (m1 ++ m2) = combine l1 m1 ++ combine l2 m2.
Proof.
  revert m1. induction l1 as [|a l1 IH]; intros [|b m1] L; try discriminate.
  - reflexivity.
  - simpl. f_equal. apply IH. simpl in L. lia.
Qed.

(** With distinct keys, the dictionary of zipped lists maps key [j] to
    value [j]. *)
Lemma dict_of_zip (names : list string) :
  forall (vs : list value) (j : nat) (name : string),
    NoDup names ->
    length vs = length names ->
    nth_error names j = Some name ->
    dict_get (dict_of_pairs (combine names vs)) name = nth_error vs j.
Proof.
  induction names as [|x rest IH] using rev_ind; intros vs j name N L E.
  - destruct j; discriminate.
  - rewrite length_app in L. simpl in L.
    destruct vs as [|v vs' _] using rev_ind; [simpl in L; lia|].
    rewrite length_app in L. simpl in L.
    assert (L' : length vs' = length rest) by lia.
    rewrite combine_app by (symmetry; exact L'). simpl combine.
    rewrite dict_of_pairs_snoc.
    apply NoDup_remove in N as [N Nx]. rewrite app_nil_r in N, Nx.
    destruct (Nat.lt_ge_cases j (length rest)) as [Lt|Ge].
    + rewrite nth_error_app1 in E by exact Lt.
      rewrite nth_error_app1 by lia.
      destruct (String.eqb_spec name x) as [->|_].
      * elim Nx. eapply nth_error_In; eassumption.
      * now apply IH.
    + rewrite nth_error_app2 in E by exact Ge.
      rewrite nth_error_app2 by lia. rewrite L'.
      destruct (j - length rest) as [|m]; [|destruct m; discriminate].
      simpl in E. inversion E; subst. now rewrite String.eqb_refl.
Qed.

Lemma collect_ok (named : list string) (kwargs : pydict) :
  forall vs : list value,
    length vs = length named ->
    (forall j name, nth_error named j = Some name ->
                    dict_get kwargs name = nth_error vs j) ->
    collect named kwargs = Some vs.
Proof.
  induction named as [|k named IH]; intros vs L H.
  - destruct vs; [reflexivity | discriminate].
  - destruct vs as [|v vs]; [discriminate|]. simpl.
    rewrite (H 0 k eq_refl). simpl.
    rewrite (IH vs); [reflexivity | simpl in L; lia |].
    intros j name E. exact (H (S j) name E).
Qed.

Lemma bind_args_raises (params : list string) (args : list value)
    (kwargs : pydict) (e : exc) :
  bind_args params args kwargs = Raise e -> e = TypeError.
Proof.
  unfold bind_args. destruct (Nat.ltb _ _); [intros H; now inversion H|].
  destruct (forallb _ kwargs); simpl; [|intros H; now inversion H].
  destruct (collect _ _); intros H; now inversion H.
Qed.

(** Positional arguments first, the remaining parameters by keyword. *)
Lemma bind_args_ok (params : list string) (k : nat) (vs : list value)
    (kwargs : pydict) :
  length vs = length params ->
  k <= length params ->
  (forall key, In key (map fst kwargs) -> In key (skipn k params)) ->
  (forall j name, k <= j -> nth_error params j = Some name ->
                  dict_get kwargs name = nth_error vs j) ->
  bind_args params (firstn k vs) kwargs = Ok vs.
Proof.
  intros L K Keys Vals. unfold bind_args.
  rewrite length_firstn, L, Nat.min_l by exact K.
  destruct (Nat.ltb_spec (length params) k); [lia|].
  assert (F : forallb (fun kv => mem (fst kv) (skipn k params)) kwargs = true).
  { apply forallb_forall. intros kv I. apply mem_In, Keys.
    now apply in_map. }
  rewrite F. simpl.
  rewrite (collect_ok _ _ (skipn k vs)).
  - now rewrite firstn_skipn.
  - rewrite !length_skipn. lia.
  - intros j name E. rewrite nth_error_skipn in E |- *.
    apply Vals; [lia | exact E].
Qed.

(** ** Lists of names and values *)

Lemma dict_get_combine (l : list string) :
  forall (vs : list value) (j : nat) (name : string),
    NoDup l -> nth_error l j = Some name ->
    length vs = length l ->
    dict_get (combine l vs) name = nth_error vs j.
Proof.
  induction l as [|x l IH]; intros vs j name N E L.
  - destruct j; discriminate.
  - destruct vs as [|v vs]; [discriminate|]. inversion N; subst.
    simpl. destruct j as [|j]; simpl in E.
    + inversion E; subst. now rewrite String.eqb_refl.
    + destruct (String.eqb_spec name x) as [->|_].
      * exfalso. eauto using nth_error_In.
      * simpl. apply IH; auto.
Qed.

Lemma nth_error_update (p : instance) (j i : nat) (v : value) :
  j < length p ->
  nth_error (update p j v) i = if Nat.eqb i j then Some v else nth_error p i.
Proof.
  intros L. unfold update.
  assert (F : length (firstn j p) = j) by (rewrite length_firstn; lia).
  destruct (Nat.eqb_spec i j) as [->|N].
  - rewrite nth_error_app2 by lia. now rewrite F, Nat.sub_diag.
  - destruct (Nat.lt_ge_cases i j).
    + rewrite nth_error_app1 by lia. rewrite nth_error_firstn.
      destruct (Nat.ltb_spec i j); [reflexivity | lia].
    + rewrite nth_error_app2 by lia. rewrite F.
      destruct (i - j) as [|m] eqn:D; [lia|]. cbn [nth_error].
      rewrite nth_error_skipn. f_equal. lia.
Qed.

Lemma length_update (p : instance) (j : nat) (v : value) :
  j < length p -> length (update p j v) = length p.
Proof.
  intros L. unfold update. rewrite length_app. cbn [length].
  rewrite length_firstn, length_skipn. lia.
Qed.

Lemma nth_error_same_index (l : list string) (i j : nat) (x : string) :
  NoDup l -> nth_error l i = Some x -> nth_error l j = Some x -> i = j.
Proof.
  intros N Ei Ej. rewrite NoDup_nth_error in N. apply N.
  - apply nth_error_Some. congruence.
  - congruence.
Qed.

Lemma dict_set_has_key (k : string) (v : value) (d : pydict) (x : string) :
  x = k \/ In x (map fst d) -> In x (map fst (dict_set k v d)).
Proof.
  induction d as [|[k0 v0] d IH]; simpl.
  - intros [->|[]]. now left.
  - destruct (String.eqb_spec k k0) as [->|N]; simpl.
    + intros [->|[->|I]]; auto.
    + intros [->|[->|I]]; auto.
Qed.

Lemma dict_fold_has_key (pairs : list (string * value)) :
  forall (d : pydict) (x : string),
    In x (map fst pairs) \/ In x (map fst d) ->
    In x (map fst (fold_left (fun d kv => dict_set (fst kv) (snd kv) d)
                             pairs d)).
Proof.
  induction pairs as [|[k v] pairs IH]; simpl; intros d x H.
  - destruct H as [[]|H]. exact H.
  - apply IH. destruct H as [[->|H]|H]; auto; right;
      apply dict_set_has_key; auto.
Qed.

Lemma map_fst_combine (l : list string) :
  forall vs : list value, length vs = length l -> map fst (combine l vs) = l.
Proof.
  induction l as [|x l IH]; intros [|v vs] L; try discriminate.
  - reflexivity.
  - simpl. f_equal. apply IH. simpl in L. lia.
Qed.

Lemma collect_missing (named : list string) (kwargs : pydict) (name : string) :
  In name named -> dict_get kwargs name = None -> collect named kwargs = None.
Proof.
  induction named as [|k named IH]; intros I D; [destruct I|]. simpl.
  destruct I as [->|I].
  - now rewrite D.
  - rewrite (IH I D). now destruct (dict_get kwargs k).
Qed.

(** ** Formatting *)

Lemma append_assoc (a b c : string) : ((a ++ b) ++ c = a ++ (b ++ c))%string.
Proof. induction a as [|x a IH]; simpl; [reflexivity | now rewrite IH]. Qed.

Lemma bind_ret {A : Type} (r : result A) : (x <- r ;; Ok x) = r.
Proof. now destruct r. Qed.

Lemma bind_assoc {A B C : Type} (r : result A) (f : A -> result B)
    (g : B -> result C) :
  (y <- (x <- r ;; f x) ;; g y) = (x <- r ;; y <- f x ;; g y).
Proof. now destruct r. Qed.

Lemma pyformat_literal (lit fmt : string) (args : list value) :
  percent_free lit = true ->
  pyformat (lit ++ fmt) args =
  (out <- pyformat fmt args ;; Ok (lit ++ out)%string).
Proof.
  induction lit as [|c lit IH]; intros F.
  - simpl. now rewrite bind_ret.
  - simpl in F. apply andb_true_iff in F as [C F].
    apply negb_true_iff in C. cbn [append pyformat]. rewrite C.
    rewrite (IH F), bind_assoc. reflexivity.
Qed.

Lemma pyformat_r (fmt : string) (v : value) (args : list value) :
  pyformat ("%r" ++ fmt) (v :: args) =
  (out <- pyformat fmt args ;; Ok (repr_value v ++ out)%string).
Proof. reflexivity. Qed.

Lemma pyformat_field (name tail : string) (v : value) (args : list value) :
  percent_free name = true ->
  pyformat ((name ++ "=%r") ++ tail) (v :: args) =
  (out <- pyformat tail args ;; Ok (field_repr (name, v) ++ out)%string).
Proof.
  intros F. rewrite append_assoc, (pyformat_literal name _ _ F).
  change ("=%r" ++ tail)%string with (String "=" ("%r" ++ tail)).
  cbn [pyformat]. change (Ascii.eqb "=" "%") with false. cbv iota.
  rewrite pyformat_r, !bind_assoc. unfold field_repr. cbn [fst snd].
  destruct (pyformat tail args); cbn [bind]; [|reflexivity].
  now rewrite !append_assoc.
Qed.

(** The format text of the fields consumes one element per field. *)
Lemma pyformat_reprtxt (names : list string) :
  forall (vs : list value) (tail : string),
    forallb percent_free names = true ->
    length vs = length names ->
    pyformat (reprtxt names ++ tail) vs =
    (out <- pyformat tail [] ;;
     Ok (join ", " (map field_repr (combine names vs)) ++ out)%string).
Proof.
  unfold reprtxt, join.
  induction names as [|x rest IH]; intros vs tail F L.
  - destruct vs; [|discriminate]. simpl. now rewrite bind_ret.
  - destruct vs as [|v vs]; [discriminate|].
    cbn [forallb] in F. apply andb_true_iff in F as [Fx Fr].
    assert (L' : length vs = length rest) by (simpl in L; lia).
    destruct rest as [|y rest].
    + destruct vs; [|discriminate]. cbn [map combine String.concat].
      now rewrite pyformat_field.
    + destruct vs as [|w vs]; [discriminate|].
      specialize (IH (w :: vs) tail Fr L').
      cbn [map combine String.concat] in IH |- *.
      rewrite append_assoc, pyformat_field by exact Fx.
      rewrite append_assoc, (pyformat_literal ", ") by reflexivity.
      rewrite IH, !bind_assoc.
      destruct (pyformat tail []); cbn [bind]; [|reflexivity].
      now rewrite !append_assoc.
Qed.

Lemma identifier_start_not_percent (c : ascii) :
  isalpha_char c || Ascii.eqb c "_" = true -> Ascii.eqb c "%" = false.
Proof.
  destruct c as [[] [] [] [] [] [] [] []]; vm_compute; congruence.
Qed.

Lemma alnum_not_percent (c : ascii) :
  isalnum_char c = true -> Ascii.eqb c "%" = false.
Proof.
  destruct c as [[] [] [] [] [] [] [] []]; vm_compute; congruence.
Qed.

Lemma identifier_percent_free (name : string) :
  isidentifier name = true -> percent_free name = true.
Proof.
  destruct name as [|c rest]; [discriminate|]. simpl.
  intros H. apply andb_true_iff in H as [C R].
  rewrite (identifier_start_not_percent c C). simpl.
  induction rest as [|d rest IH]; [reflexivity|]. simpl in R |- *.
  destruct (Ascii.eqb_spec d "_") as [->|_].
  - simpl. now apply IH.
  - simpl in R. apply andb_true_iff in R as [D R].
    rewrite (alnum_not_percent d D). simpl. now apply IH.
Qed.

(** ** Generated classes *)

Lemma plain_not_special (name key : string) :
  plain name = true -> startswith "__" key = true -> name <> key.
Proof.
  unfold plain. intros P S ->. rewrite S in P. discriminate.
Qed.

Section Generated.

Variables (h : host) (typename str : string) (T : record_class).
Hypothesis generated : NamedTuple h typename (SpecStr str) = Ok T.

Local Abbreviation names := (field_names str).

Lemma gen_compiles : compiles h typename names = true.
Proof.
  destruct (NamedTuple_ok _ _ _ _ generated)
    as (str' & pre & E & _ & C & _). inversion E; subst. exact C.
Qed.

Lemma gen_name : cls_name T = typename.
Proof.
  now destruct (NamedTuple_ok _ _ _ _ generated)
    as (str' & pre & E & _ & _ & N & _).
Qed.

Lemma gen_params_distinct : NoDup (map (mangle typename) names).
Proof.
  pose proof gen_compiles as C. unfold compiles in C.
  apply andb_true_iff in C as [C _].
  apply andb_true_iff in C as [_ C]. apply nodup_NoDup in C.
  now inversion C.
Qed.

Lemma gen_names_distinct : NoDup names.
Proof. exact (NoDup_map_inv _ _ gen_params_distinct). Qed.

Lemma gen_identifiers (name : string) :
  In name (typename :: names) -> isidentifier name = true.
Proof.
  intros I. pose proof gen_compiles as C. unfold compiles in C.
  apply andb_true_iff in C as [C _].
  apply andb_true_iff in C as [C _]. rewrite forallb_forall in C.
  specialize (C name I). now apply andb_true_iff in C.
Qed.

Lemma gen_dict :
  exists pre,
    (pre = [] \/ pre = [("__module__", AModule)]) /\
    cls_dict T = pre ++ rev (accessors typename 0 names)
                     ++ template_attrs typename names.
Proof.
  destruct (NamedTuple_ok _ _ _ _ generated)
    as (str' & pre & E & _ & _ & _ & P & D).
  inversion E; subst. eauto.
Qed.

(** The class binds the name of a plain field to the property of its
    index, whatever the other fields are called. *)
Lemma gen_lookup_field (j : nat) (name : string) :
  nth_error names j = Some name ->
  plain name = true ->
  ns_get (cls_dict T) name = Some (AProperty j).
Proof.
  intros E P. destruct gen_dict as (pre & Hpre & ->).
  rewrite ns_get_app.
  assert (N : ns_get pre name = None).
  { destruct Hpre as [->| ->]; [reflexivity|]. simpl.
    destruct (String.eqb_spec name "__module__") as [->|_];
      [discriminate | reflexivity]. }
  rewrite N. rewrite <- (mangle_plain typename name P) at 1.
  exact (ns_get_accessor typename names 0 j name _ gen_params_distinct E).
Qed.

(** With plain field names, a special name other than [__module__] is
    still bound to what the template bound it to. *)
Lemma gen_lookup_special (key : string) :
  forallb plain names = true ->
  startswith "__" key = true ->
  key <> "__module__" ->
  ns_get (cls_dict T) key = ns_get (template_attrs typename names) key.
Proof.
  intros P S M. destruct gen_dict as (pre & Hpre & ->).
  rewrite ns_get_app.
  assert (N : ns_get pre key = None).
  { destruct Hpre as [->| ->]; [reflexivity|]. simpl.
    destruct (String.eqb_spec key "__module__"); [contradiction|reflexivity]. }
  rewrite N. apply ns_get_not_accessor.
  rewrite (map_mangle_plain _ _ P). intros I.
  rewrite forallb_forall in P.
  exact (plain_not_special key key (P key I) S eq_refl).
Qed.

Lemma gen_new :
  forallb plain names = true ->
  ns_get (cls_dict T) "__new__" = Some (ANew names).
Proof.
  intros P. rewrite gen_lookup_special by (auto; discriminate).
  simpl. now rewrite (map_mangle_plain _ _ P).
Qed.

Lemma gen_repr :
  forallb plain names = true ->
  ns_get (cls_dict T) "__repr__" =
  Some (ARepr (typename ++ "(" ++ reprtxt names ++ ")")).
Proof. intros P. now rewrite gen_lookup_special by (auto; discriminate). Qed.

Lemma gen_replace :
  forallb plain names = true ->
  ns_get (cls_dict T) "__replace__" = Some (AReplace typename names).
Proof. intros P. now rewrite gen_lookup_special by (auto; discriminate). Qed.

Lemma gen_fields :
  forallb plain names = true ->
  ns_get (cls_dict T) "__fields__" = Some (AFields names).
Proof. intros P. now rewrite gen_lookup_special by (auto; discriminate). Qed.

Lemma gen_lookup_method (key : string) (a : attr) :
  ns_get (template_attrs typename names) key = Some a ->
  key <> "__module__" ->
  ns_get (cls_dict T) key = Some a \/
  exists i, i < length names /\ ns_get (cls_dict T) key = Some (AProperty i).
Proof.
  intros A M. destruct gen_dict as (pre & Hpre & ->).
  rewrite ns_get_app.
  assert (N : ns_get pre key = None).
  { destruct Hpre as [->| ->]; [reflexivity|]. simpl.
    destruct (String.eqb_spec key "__module__"); [contradiction|reflexivity]. }
  rewrite N, ns_get_app.
  destruct (ns_get (rev (accessors typename 0 names)) key) as [b|] eqn:G;
    [right | now left].
  assert (X : forall l i b,
            ns_get (rev (accessors typename i l)) key = Some b ->
            exists j, j < length l /\ b = AProperty (i + j)).
  { induction l as [|x l IH]; intros i c; simpl; [discriminate|].
    rewrite ns_get_app. destruct (ns_get (rev (accessors typename (S i) l)) key)
      as [c'|] eqn:G'.
    - intros H. inversion H; subst c'. destruct (IH _ _ G') as (j & Lj & ->).
      exists (S j). split; [lia | f_equal; lia].
    - simpl. destruct (String.eqb key (mangle typename x)); [|discriminate].
      intros H. inversion H. exists 0. split; [lia | f_equal; lia]. }
  destruct (X _ _ _ G) as (j & Lj & ->). exists j. auto.
Qed.

(** The constructor, once the class binds [__new__] to the template's
    function and the function reaches the built-in [tuple]. *)
Lemma gen_call_class (vs : list value) (k : nat) (kwargs : pydict) :
  forallb plain (typename :: names) = true ->
  mem "tuple" (typename :: names) = false ->
  length vs = length names ->
  k <= length names ->
  (forall key, In key (map fst kwargs) -> In key (skipn k names)) ->
  (forall j name, k <= j -> nth_error names j = Some name ->
                  dict_get kwargs name = nth_error vs j) ->
  call_class T (firstn k vs) kwargs = Ok vs.
Proof.
  intros P Tu L K Keys Vals. cbn [forallb] in P. rewrite mem_cons in Tu.
  apply andb_true_iff in P as [Pt Pn].
  apply orb_false_iff in Tu as [Tt Tn].
  unfold call_class. rewrite (gen_new Pn).
  rewrite (bind_args_ok names k vs kwargs L K Keys Vals). cbn [bind].
  now rewrite Tn, gen_name, String.eqb_sym, Tt.
Qed.

(** A dictionary that holds every field name and one more key cannot be
    bound to the parameters of [__new__], which are as many as the fields. *)
Lemma bind_args_unknown_key (p : instance) (field : string) (v : value) :
  length p = length names ->
  ~ In field names ->
  bind_args (map (mangle typename) names) []
            (dict_of_pairs (combine names p ++ [(field, v)]))
  = Raise TypeError.
Proof.
  intros L U. unfold bind_args. cbn [length Nat.ltb Nat.leb skipn].
  destruct (forallb _ _) eqn:F; [exfalso | reflexivity].
  rewrite forallb_forall in F.
  assert (I : incl (field :: names) (map (mangle typename) names)).
  { intros x Hx.
    assert (K : In x (map fst (dict_of_pairs
                                 (combine names p ++ [(field, v)])))).
    { apply dict_fold_has_key. left.
      rewrite map_app, map_fst_combine by exact L.
      apply in_or_app. destruct Hx as [<-|Hx]; [right; now left | now left]. }
    apply in_map_iff in K as [kv [<- K]]. apply mem_In. now apply F. }
  apply NoDup_incl_length in I.
  - rewrite length_map in I. simpl in I. lia.
  - constructor; [exact U | exact gen_names_distinct].
Qed.

(** A keyword for a parameter that a positional argument has filled. *)
Lemma bind_args_duplicate (args : list value) (kwargs : pydict) (j : nat)
    (name : string) :
  j < length args ->
  nth_error names j = Some name ->
  In name (map fst kwargs) ->
  bind_args names args kwargs = Raise TypeError.
Proof.
  intros J E I. unfold bind_args.
  destruct (Nat.ltb _ _); [reflexivity|].
  destruct (forallb _ kwargs) eqn:F; [exfalso | reflexivity].
  rewrite forallb_forall in F. apply in_map_iff in I as [kv [K I]].
  specialize (F kv I). rewrite K in F. apply mem_In in F.
  apply In_nth_error in F as [i Ei]. rewrite nth_error_skipn in Ei.
  pose proof (nth_error_same_index names _ _ name gen_names_distinct E Ei).
  lia.
Qed.

(** A parameter that neither a positional argument nor a keyword fills. *)
Lemma bind_args_missing (args : list value) (kwargs : pydict) (j : nat)
    (name : string) :
  length args <= j ->
  nth_error names j = Some name ->
  dict_get kwargs name = None ->
  bind_args names args kwargs = Raise TypeError.
Proof.
  intros J E D. unfold bind_args.
  destruct (Nat.ltb _ _); [reflexivity|].
  destruct (forallb _ kwargs); [|reflexivity]. cbn [negb].
  rewrite (collect_missing _ kwargs name); [reflexivity | | exact D].
  apply nth_error_In with (n := j - length args).
  rewrite nth_error_skipn. rewrite <- E. f_equal. lia.
Qed.

(** X20.  For ASCII names: when no field name begins with two
    underscores, the class binds the name of field [j] to the property of
    index [j] at creation, and reading the attribute of that name on any
    instance is reading the element at index [j]. *)
Theorem field_attribute_is_item (j : nat) (name : string) (p : instance) :
  forallb is_ascii (typename :: names) = true ->
  forallb plain names = true ->
  nth_error names j = Some name ->
  ns_get (cls_dict T) name = Some (AProperty j) /\
  getattr T p name = getitem p j.
Proof.
  intros _ P E.
  assert (L : ns_get (cls_dict T) name = Some (AProperty j)).
  { apply gen_lookup_field; [exact E|]. rewrite forallb_forall in P.
    apply P. eapply nth_error_In; eassumption. }
  split; [exact L|]. unfold getattr. now rewrite L.
Qed.

(** X24.  For ASCII names: when no field name begins with two
    underscores, the class attribute [__fields__] is the declared sequence
    of field names, on the class and read through an instance, and the
    dictionary built from zipping it with an instance maps the name of
    field [j] to element [j], which is also what the attribute of that name
    reads. *)
Theorem fields_attribute_roundtrip (p : instance) :
  forallb is_ascii (typename :: names) = true ->
  forallb plain names = true ->
  length p = length names ->
  ns_get (cls_dict T) "__fields__" = Some (AFields names) /\
  getattr T p "__fields__" = Ok (ClassAttr (AFields names)) /\
  forall j name,
    nth_error names j = Some name ->
    dict_get (dict_of_pairs (combine names p)) name = nth_error p j /\
    getattr T p name = getitem p j.
Proof.
  intros _ P L. split; [exact (gen_fields P)|]. split.
  - unfold getattr. now rewrite (gen_fields P).
  - intros j name E. split.
    + exact (dict_of_zip names p j name gen_names_distinct L E).
    + unfold getattr. rewrite (gen_lookup_field j name E); [reflexivity|].
      rewrite forallb_forall in P. apply P.
      eapply nth_error_In; eassumption.
Qed.

(** X21.  For ASCII names: when neither the type name nor a field name
    begins with two underscores or is [tuple], the class is constructed
    from positional
    arguments, from keywords named after the fields, and from any mix of
    leading positional arguments and keywords for the remaining fields (in
    any order); all of them build the same instance.  Too many positional
    arguments, a keyword for a field already given by position, and a
    field left without a value are a [TypeError]. *)
Theorem construction_positional_keyword (vs : list value) :
  forallb is_ascii (typename :: names) = true ->
  forallb plain (typename :: names) = true ->
  mem "tuple" (typename :: names) = false ->
  length vs = length names ->
  call_class T vs [] = Ok vs /\
  call_class T [] (combine names vs) = Ok vs /\
  (forall (k : nat) (kwargs : pydict),
      k <= length names ->
      (forall key, In key (map fst kwargs) -> In key (skipn k names)) ->
      (forall j name, k <= j -> nth_error names j = Some name ->
                      dict_get kwargs name = nth_error vs j) ->
      call_class T (firstn k vs) kwargs = Ok vs) /\
  (forall (args : list value) (kwargs : pydict),
      length names < length args ->
      call_class T args kwargs = Raise TypeError) /\
  (forall (args : list value) (kwargs : pydict) (j : nat) (name : string),
      nth_error names j = Some name ->
      (j < length args /\ In name (map fst kwargs)) \/
      (length args <= j /\ dict_get kwargs name = None) ->
      call_class T args kwargs = Raise TypeError).
Proof.
  intros _ P Tu L.
  assert (Pn : forallb plain names = true).
  { cbn [forallb] in P. now apply andb_true_iff in P. }
  split; [|split; [|split; [|split]]].
  - rewrite <- (firstn_all vs) at 1. rewrite L.
    apply gen_call_class; auto.
    + intros key [].
    + intros j name K E. apply nth_error_lt in E. lia.
  - apply (gen_call_class vs 0); auto.
    + lia.
    + intros key I. rewrite map_fst_combine in I by exact L. exact I.
    + intros j name _ E.
      now apply dict_get_combine; auto using gen_names_distinct.
  - intros k kwargs. now apply gen_call_class.
  - intros args kwargs M.
    unfold call_class. rewrite (gen_new Pn). unfold bind_args.
    destruct (Nat.ltb_spec (length names) (length args)); [reflexivity | lia].
  - intros args kwargs j name E H.
    unfold call_class. rewrite (gen_new Pn).
    destruct H as [[J I] | [J D]].
    + now rewrite (bind_args_duplicate args kwargs j name J E I).
    + now rewrite (bind_args_missing args kwargs j name J E D).
Qed.

(** X22.  For ASCII names: when neither the type name nor a field name
    begins with two underscores or is [tuple], and the type name is none of
    [self],
    [field], [value], [dict], [list], [zip], replacing a declared field of
    an instance returns the instance the constructor builds from the old
    elements with the new value at the field's index: the field reads as
    the new value, every other field reads as before.  The argument itself
    is a value and is not changed. *)
Theorem replace_field_frame (p : instance) (j : nat) (f : string) (v : value) :
  forallb is_ascii (typename :: names) = true ->
  forallb plain (typename :: names) = true ->
  mem "tuple" (typename :: names) = false ->
  mem typename rebound_in_replace = false ->
  length p = length names ->
  nth_error names j = Some f ->
  py_replace T p f v = Ok (update p j v) /\
  py_replace T p f v = call_class T (update p j v) [] /\
  getattr T (update p j v) f = Ok (Elem v) /\
  (forall g, In g names -> g <> f ->
             getattr T (update p j v) g = getattr T p g).
Proof.
  intros _ P Tu R L E.
  assert (J : j < length p) by (rewrite L; eapply nth_error_lt; eassumption).
  assert (Pn : forallb plain names = true).
  { cbn [forallb] in P. now apply andb_true_iff in P. }
  assert (Pt : plain typename = true).
  { cbn [forallb] in P. now apply andb_true_iff in P. }
  assert (L' : length (update p j v) = length names)
    by (now rewrite length_update).
  assert (C : call_class T (update p j v) [] = Ok (update p j v)).
  { rewrite <- (firstn_all (update p j v)) at 1. rewrite L'.
    apply gen_call_class; auto.
    - intros key [].
    - intros i name K Ei. apply nth_error_lt in Ei. lia. }
  assert (X : py_replace T p f v = Ok (update p j v)).
  { unfold py_replace. rewrite (gen_replace Pn). unfold replace_body.
    rewrite (mangle_plain typename typename Pt).
    unfold rebound_in_replace in R. rewrite !mem_cons in R.
    repeat (apply orb_false_iff in R as [? R]).
    rewrite !mem_cons. cbn [mem existsb].
    repeat match goal with
           | H : String.eqb typename _ = false |- _ => rewrite H; clear H
           end.
    rewrite String.eqb_refl. cbn [orb negb].
    apply (gen_call_class (update p j v) 0); auto.
    - lia.
    - intros key I. apply dict_of_pairs_keys in I.
      rewrite map_app, map_fst_combine in I by exact L.
      apply in_app_or in I. destruct I as [I|[<-|[]]]; [exact I|].
      eapply nth_error_In; eassumption.
    - intros i name _ Ei.
      rewrite dict_of_pairs_snoc, nth_error_update by exact J.
      destruct (String.eqb_spec name f) as [->|N].
      + rewrite (nth_error_same_index names i j f gen_names_distinct Ei E).
        now rewrite Nat.eqb_refl.
      + destruct (Nat.eqb_spec i j) as [->|_]; [congruence|].
        exact (dict_of_zip names p i name gen_names_distinct L Ei). }
  split; [exact X|]. split; [now rewrite X, C|]. split.
  - unfold getattr. rewrite (gen_lookup_field j f E).
    + unfold getitem. rewrite nth_error_update by exact J.
      now rewrite Nat.eqb_refl.
    + rewrite forallb_forall in Pn. apply Pn. eapply nth_error_In; eassumption.
  - intros g I N. apply In_nth_error in I as [i Ei].
    unfold getattr. rewrite (gen_lookup_field i g Ei).
    + unfold getitem. rewrite nth_error_update by exact J.
      destruct (Nat.eqb_spec i j) as [->|_]; [congruence | reflexivity].
    + rewrite forallb_forall in Pn. apply Pn. eapply nth_error_In; eassumption.
Qed.

(** C5, amended.  For ASCII names that do not begin with two underscores
    and a type name that is none of [self], [field], [value], [dict],
    [list], [zip]: replacing a name that is not a declared field fails on
    every instance, at the call.  No error of its own is raised: the
    failure is the [TypeError] with which the constructor, called with the
    fields and the unknown name as keywords, refuses to bind its arguments,
    the error it also raises for too many arguments. *)
Theorem replace_unknown_field (p : instance) (field : string) (v : value) :
  forallb is_ascii (typename :: names) = true ->
  forallb plain (typename :: names) = true ->
  mem typename rebound_in_replace = false ->
  length p = length names ->
  ~ In field names ->
  py_replace T p field v = Raise TypeError /\
  py_replace T p field v =
  call_class T [] (dict_of_pairs (combine names p ++ [(field, v)])) /\
  bind_args names [] (dict_of_pairs (combine names p ++ [(field, v)]))
  = Raise TypeError /\
  (forall args kwargs,
      length names < length args ->
      call_class T args kwargs = Raise TypeError).
Proof.
  intros _ P R L U.
  assert (Pn : forallb plain names = true).
  { cbn [forallb] in P. now apply andb_true_iff in P. }
  assert (Pt : plain typename = true).
  { cbn [forallb] in P. now apply andb_true_iff in P. }
  assert (B : bind_args names []
                (dict_of_pairs (combine names p ++ [(field, v)]))
              = Raise TypeError).
  { rewrite <- (map_mangle_plain typename names Pn) at 1.
    now apply bind_args_unknown_key. }
  assert (X : py_replace T p field v =
              call_class T [] (dict_of_pairs
                                 (combine names p ++ [(field, v)]))).
  { unfold py_replace. rewrite (gen_replace Pn). unfold replace_body.
    rewrite (mangle_plain typename typename Pt).
    unfold rebound_in_replace in R. rewrite !mem_cons in R.
    repeat (apply orb_false_iff in R as [? R]).
    rewrite !mem_cons. cbn [mem existsb].
    repeat match goal with
           | H : String.eqb typename _ = false |- _ => rewrite H; clear H
           end.
    now rewrite String.eqb_refl. }
  assert (C : call_class T [] (dict_of_pairs
                                 (combine names p ++ [(field, v)]))
              = Raise TypeError).
  { unfold call_class. now rewrite (gen_new Pn), B. }
  split; [now rewrite X|]. split; [exact X|]. split; [exact B|].
  intros args kwargs M. unfold call_class. rewrite (gen_new Pn).
  unfold bind_args.
  destruct (Nat.ltb_spec (length names) (length args)); [reflexivity | lia].
Qed.

(** X23.  For ASCII names: when no field name begins with two
    underscores, the repr of an instance is the type name followed, in
    parentheses, by
    [name=repr(element)] for each field in order, separated by a comma and
    a space. *)
Theorem repr_renders_fields (p : instance) :
  forallb is_ascii (typename :: names) = true ->
  forallb plain names = true ->
  length p = length names ->
  py_repr T p =
  Ok (typename ++ "(" ++ join ", " (map field_repr (combine names p))
               ++ ")")%string.
Proof.
  intros _ P L. unfold py_repr. rewrite (gen_repr P).
  assert (F : forall x, In x (typename :: names) -> percent_free x = true).
  { intros x I. apply identifier_percent_free. now apply gen_identifiers. }
  rewrite (pyformat_literal typename) by (apply F; now left).
  rewrite (pyformat_literal "(" (reprtxt names ++ ")")) by reflexivity.
  rewrite pyformat_reprtxt; [reflexivity | | exact L].
  apply forallb_forall. intros x I. apply F. now right.
Qed.

End Generated.

(** ** Parsing the field specification *)

Lemma replace_char_app (old new : ascii) (a b : string) :
  replace_char old new (a ++ b) =
  (replace_char old new a ++ replace_char old new b)%string.
Proof. induction a as [|c a IH]; simpl; [reflexivity | now rewrite IH]. Qed.

Lemma replace_comma_word (w : string) :
  all_chars (fun c => negb (issep_char c)) w = true ->
  replace_char "," " " w = w /\
  all_chars (fun c => negb (isspace_char c)) w = true.
Proof.
  induction w as [|c w IH]; simpl; [auto|].
  intros H. apply andb_true_iff in H as [C W]. destruct (IH W) as [-> ->].
  unfold issep_char in C. apply negb_true_iff, orb_false_iff in C as [S K].
  now rewrite K, S.
Qed.

Lemma replace_comma_sep (sep : string) :
  all_chars issep_char sep = true ->
  all_chars isspace_char (replace_char "," " " sep) = true.
Proof.
  induction sep as [|c sep IH]; simpl; [auto|].
  intros H. apply andb_true_iff in H as [C S]. rewrite (IH S).
  unfold issep_char in C. destruct (Ascii.eqb c ","); [reflexivity|].
  rewrite orb_false_r in C. now rewrite C.
Qed.

Lemma split_from_word (u : string) :
  forall w s,
    all_chars (fun c => negb (isspace_char c)) u = true ->
    split_from w (u ++ s) = split_from (w ++ u) s.
Proof.
  induction u as [|c u IH]; intros w s H.
  - simpl. f_equal. clear. induction w; simpl; congruence.
  - simpl in H. apply andb_true_iff in H as [C U].
    apply negb_true_iff in C. cbn [append split_from]. rewrite C.
    rewrite (IH _ _ U), append_assoc. reflexivity.
Qed.

Lemma split_from_spaces (sp : string) :
  forall s,
    all_chars isspace_char sp = true ->
    split_from EmptyString (sp ++ s) = split_from EmptyString s.
Proof.
  induction sp as [|c sp IH]; intros s H; [reflexivity|].
  simpl in H. apply andb_true_iff in H as [C S].
  cbn [append split_from]. rewrite C. simpl. now apply IH.
Qed.

Lemma split_from_separator (sp : string) (w s : string) :
  nonempty sp = true ->
  all_chars isspace_char sp = true ->
  split_from w (sp ++ s) = flush w ++ split_from EmptyString s.
Proof.
  destruct sp as [|c sp]; [discriminate|]. intros _ H.
  simpl in H. apply andb_true_iff in H as [C S].
  cbn [append split_from]. rewrite C. f_equal. now apply split_from_spaces.
Qed.

Lemma field_names_spell (items : list (string * string)) :
  well_spelled items = true ->
  split (replace_char "," " " (spell items)) = map fst items.
Proof.
  unfold split. induction items as [|[name sep] rest IH]; [reflexivity|].
  cbn [well_spelled spell map fst]. intros H.
  apply andb_true_iff in H as [H R]. apply andb_true_iff in H as [H E].
  apply andb_true_iff in H as [W S]. unfold is_word in W.
  apply andb_true_iff in W as [N W].
  destruct (replace_comma_word name W) as [Rn Wn].
  rewrite !replace_char_app, Rn, split_from_word by exact Wn.
  cbn [append]. pose proof (replace_comma_sep sep S) as Ss.
  destruct sep as [|c sep].
  - destruct rest; [|discriminate]. simpl. now destruct name.
  - rewrite split_from_separator; [|reflexivity|exact Ss].
    rewrite (IH R). now destruct name.
Qed.

Lemma field_names_spelling (lead : string) (items : list (string * string)) :
  all_chars issep_char lead = true ->
  well_spelled items = true ->
  field_names (lead ++ spell items) = map fst items.
Proof.
  intros L W. unfold field_names. rewrite replace_char_app.
  unfold split. rewrite split_from_spaces by now apply replace_comma_sep.
  now apply field_names_spell.
Qed.

(** C7, amended.  The factory takes the field specification as one string:
    names separated by runs of white space and commas, with or without such
    a run before the first and after the last name, denote those names in
    that order, so any two spellings of the same names give the same result
    (the same type, field order and arity); a sequence of names is not
    accepted and raises [AttributeError]. *)
Theorem field_spec_spellings (h : host) (typename lead lead' : string)
    (items items' : list (string * string)) :
  all_chars issep_char lead = true ->
  all_chars issep_char lead' = true ->
  well_spelled items = true ->
  well_spelled items' = true ->
  map fst items = map fst items' ->
  parse_fields (SpecStr (lead ++ spell items)) = Ok (map fst items) /\
  NamedTuple h typename (SpecStr (lead ++ spell items)) =
  NamedTuple h typename (SpecStr (lead' ++ spell items')) /\
  (forall l : list string,
      NamedTuple h typename (SpecSeq l) = Raise AttributeError).
Proof.
  intros L L' W W' E.
  pose proof (field_names_spelling lead items L W) as F.
  pose proof (field_names_spelling lead' items' L' W') as F'.
  split; [|split].
  - simpl. now rewrite F.
  - rewrite !NamedTuple_str, F, F', E. reflexivity.
  - reflexivity.
Qed.

(** ** The docstring of the factory, and instances of the theorems *)

Example docstring_doc :
  getattr Point [VInt 11; VInt 22] "__doc__"
  = Ok (ClassAttr (ADoc "Point(x, y)")).
Proof. reflexivity. Qed.

Example docstring_new :
  call_class Point [VInt 11] [("y", VInt 22)] = Ok [VInt 11; VInt 22].
Proof. reflexivity. Qed.

Example docstring_repr :
  py_repr Point [VInt 11; VInt 22] = Ok "Point(x=11, y=22)".
Proof. reflexivity. Qed.

Example docstring_replace :
  (p <- py_replace Point [VInt 11; VInt 22] "x" (VInt 100) ;; py_repr Point p)
  = Ok "Point(x=100, y=22)".
Proof. reflexivity. Qed.

Example docstring_fields :
  getattr Point [VInt 11; VInt 22] "__fields__"
  = Ok (ClassAttr (AFields ["x"; "y"])) /\
  dict_get (dict_of_pairs (combine ["x"; "y"] [VInt 11; VInt 22])) "x"
  = Some (VInt 11).
Proof. split; reflexivity. Qed.

Lemma field_attribute_is_item_Point :
  NamedTuple cpython "Point" (SpecStr "x y") = Ok Point /\
  ns_get (cls_dict Point) "y" = Some (AProperty 1) /\
  getattr Point [VInt 11; VInt 22] "y" = getitem [VInt 11; VInt 22] 1.
Proof.
  split; [reflexivity|].
  apply (field_attribute_is_item cpython "Point" "x y" Point); reflexivity.
Defined.

(** C1.  The claim fails on the code for the class [NamedTuple('T', '__x')],
    which the factory returns: inside the class body the name [__x] of line
    55 is mangled to [_T__x], so the instance [T(7)], whose element 0 is 7,
    has no attribute [__x], and reading it raises [AttributeError]. *)
Lemma private_field_has_no_attribute :
  NamedTuple cpython "T" (SpecStr "__x") = Ok T_private /\
  call_class T_private [VInt 7] [] = Ok [VInt 7] /\
  getitem [VInt 7] 0 = Ok (Elem (VInt 7)) /\
  getattr T_private [VInt 7] "__x" = Raise AttributeError.
Proof. repeat split. Qed.

Lemma construction_positional_keyword_Point :
  NamedTuple cpython "Point" (SpecStr "x y") = Ok Point /\
  call_class Point [VInt 1; VInt 2] [] = Ok [VInt 1; VInt 2] /\
  call_class Point [] [("x", VInt 1); ("y", VInt 2)] = Ok [VInt 1; VInt 2].
Proof.
  split; [reflexivity|].
  destruct (construction_positional_keyword cpython "Point" "x y" Point
              eq_refl [VInt 1; VInt 2] eq_refl eq_refl eq_refl eq_refl)
    as (A & B & _).
  split; [exact A | exact B].
Defined.

(** C2.  The claim fails on the code for the class
    [NamedTuple('T', 'tuple')], which the factory returns: in line 48 the
    name [tuple] is then the parameter of [__new__], so both [T(1)] and
    [T(tuple=1)] raise [TypeError] and neither construction is supported. *)
Lemma field_named_tuple_breaks_construction :
  NamedTuple cpython "T" (SpecStr "tuple") = Ok T_tuple /\
  call_class T_tuple [VInt 1] [] = Raise TypeError /\
  call_class T_tuple [] [("tuple", VInt 1)] = Raise TypeError.
Proof. repeat split. Qed.

Lemma validation_accepts_unusable_names_T :
  check_names "T" (field_names "1 2x class") = Ok tt /\
  NamedTuple cpython "T" (SpecStr "1 2x class") = Raise SyntaxError.
Proof.
  assert (A : entirely_alphanumeric
                (checked_text "T" (field_names "1 2x class")))
    by (apply isalnum_spec; reflexivity).
  destruct (validation_accepts_unusable_names cpython "T" "1 2x class" A)
    as (C & _ & _ & S).
  split; [exact C|].
  apply (S "class"); [right; right; now left | right; right; reflexivity].
Defined.

Lemma replace_field_frame_Point :
  NamedTuple cpython "Point" (SpecStr "x y") = Ok Point /\
  py_replace Point [VInt 11; VInt 22] "x" (VInt 100)
  = Ok [VInt 100; VInt 22] /\
  getattr Point [VInt 100; VInt 22] "y"
  = getattr Point [VInt 11; VInt 22] "y".
Proof.
  split; [reflexivity|].
  destruct (replace_field_frame cpython "Point" "x y" Point eq_refl
              [VInt 11; VInt 22] 0 "x" (VInt 100)
              eq_refl eq_refl eq_refl eq_refl eq_refl eq_refl)
    as (A & _ & _ & F).
  split; [exact A|].
  apply (F "y"); [right; now left | discriminate].
Defined.

(** C4.  The claim fails on the code for the class
    [NamedTuple('value', 'x y')], which the factory returns and which builds
    the instance [value(11, 22)]: the body of [__replace__] in line 53 calls
    the type name, which is there its own parameter [value], so replacing
    field [x] by 100 raises [TypeError] and returns no instance. *)
Lemma type_named_value_breaks_replace :
  NamedTuple cpython "value" (SpecStr "x y") = Ok value_xy /\
  call_class value_xy [VInt 11; VInt 22] [] = Ok [VInt 11; VInt 22] /\
  py_replace value_xy [VInt 11; VInt 22] "x" (VInt 100) = Raise TypeError.
Proof. repeat split. Qed.

Lemma replace_unknown_field_Point :
  NamedTuple cpython "Point" (SpecStr "x y") = Ok Point /\
  py_replace Point [VInt 11; VInt 22] "z" (VInt 0) = Raise TypeError.
Proof.
  split; [reflexivity|].
  refine (proj1 (replace_unknown_field cpython "Point" "x y" Point eq_refl
                   [VInt 11; VInt 22] "z" (VInt 0)
                   eq_refl eq_refl eq_refl eq_refl _)).
  intros [E | [E | []]]; discriminate.
Defined.

(** The error of an unknown field is the error of a wrong number of
    arguments: there is no error kind of its own. *)
Lemma unknown_field_error_is_binding_error :
  py_replace Point [VInt 11; VInt 22] "z" (VInt 0) = Raise TypeError /\
  call_class Point [VInt 1; VInt 2; VInt 3] [] = Raise TypeError /\
  call_class Point [VInt 1] [] = Raise TypeError.
Proof. repeat split. Qed.

Lemma repr_renders_fields_T :
  NamedTuple cpython "T" (SpecStr "x y") = Ok T_xy /\
  call_class T_xy [VInt 11; VInt 22] [] = Ok [VInt 11; VInt 22] /\
  py_repr T_xy [VInt 11; VInt 22] = Ok "T(x=11, y=22)".
Proof.
  split; [reflexivity|]. split; [reflexivity|].
  exact (repr_renders_fields cpython "T" "x y" T_xy eq_refl
           [VInt 11; VInt 22] eq_refl eq_refl eq_refl).
Defined.

(** C6.  The claim fails on the code for the class
    [NamedTuple('T', '__repr__')], which the factory returns and which
    builds the instance [T(11)]: the property that line 55 assigns to the
    field name replaces the [__repr__] of line 49, so [repr(T(11))] calls
    the element 11 and raises [TypeError] instead of rendering the
    instance. *)
Lemma field_named_repr_breaks_repr :
  NamedTuple cpython "T" (SpecStr "__repr__") = Ok T_repr /\
  call_class T_repr [VInt 11] [] = Ok [VInt 11] /\
  py_repr T_repr [VInt 11] = Raise TypeError.
Proof. repeat split. Qed.

Lemma field_spec_spellings_Point :
  parse_fields (SpecStr "x y") = Ok ["x"; "y"] /\
  NamedTuple cpython "Point" (SpecStr "x y")
  = NamedTuple cpython "Point" (SpecStr "x,y") /\
  NamedTuple cpython "Point" (SpecStr "x,y") = Ok Point.
Proof.
  destruct (field_spec_spellings cpython "Point" "" ""
              [("x", " "); ("y", "")] [("x", ","); ("y", "")]
              eq_refl eq_refl eq_refl eq_refl eq_refl)
    as (A & B & _).
  split; [exact A|]. split; [exact B | reflexivity].
Defined.

(** A list of names has no [replace]. *)
Lemma sequence_spec_is_refused :
  NamedTuple cpython "Point" (SpecSeq ["x"; "y"]) = Raise AttributeError /\
  NamedTuple cpython "Point" (SpecStr "x y") = Ok Point.
Proof. split; reflexivity. Qed.


Lemma duplicate_field_error_T :
  nodup (field_names "a a") = false /\
  NamedTuple cpython "T" (SpecStr "a a") = Raise SyntaxError.
Proof.
  split; [reflexivity|].
  exact (duplicate_field_error cpython "T" "a a" eq_refl eq_refl).
Defined.

(** A repeated field name passes the validation and fails in the compiler,
    with another error than illegal characters do. *)
Lemma duplicate_field_is_syntax_error :
  NamedTuple cpython "T" (SpecStr "a a") = Raise SyntaxError /\
  NamedTuple cpython "Bad Name!" (SpecStr "a b") = Raise ValueError /\
  check_names "T" (field_names "a a") = Ok tt.
Proof. repeat split. Qed.

Lemma fields_attribute_roundtrip_Point :
  NamedTuple cpython "Point" (SpecStr "x y") = Ok Point /\
  getattr Point [VInt 11; VInt 22] "__fields__"
  = Ok (ClassAttr (AFields ["x"; "y"])) /\
  dict_get (dict_of_pairs (combine ["x"; "y"] [VInt 11; VInt 22])) "y"
  = Some (VInt 22).
Proof.
  split; [reflexivity|].
  destruct (fields_attribute_roundtrip cpython "Point" "x y" Point eq_refl
              [VInt 11; VInt 22] eq_refl eq_refl eq_refl) as (_ & A & B).
  split; [exact A|]. exact (proj1 (B 1 "y" eq_refl)).
Defined.

(** C9.  The claim fails on the code for the class
    [NamedTuple('T', '__fields__ x')], which the factory returns and which
    builds the instance [T(1, 2)]: the property that line 55 assigns to the
    field name replaces the tuple of names bound in line 46, so
    [__fields__] read on the instance is its element 0 and not the list of
    field names. *)
Lemma field_named_fields_hides_list :
  NamedTuple cpython "T" (SpecStr "__fields__ x") = Ok T_fields /\
  call_class T_fields [VInt 1; VInt 2] [] = Ok [VInt 1; VInt 2] /\
  getattr T_fields [VInt 1; VInt 2] "__fields__" = Ok (Elem (VInt 1)).
Proof. repeat split. Qed.

(** * Further properties of the factory *)

(** ** What line 38 returns *)

Lemma all_chars_app (f : ascii -> bool) (a b : string) :
  all_chars f (a ++ b) = all_chars f a && all_chars f b.
Proof.
  induction a as [|c a IH]; simpl; [reflexivity|].
  now rewrite IH, andb_assoc.
Qed.

Lemma nonempty_app_char (w : string) (c : ascii) :
  nonempty (w ++ String c EmptyString) = true.
Proof. now destruct w. Qed.

(** Every word that [split] returns is a run of characters that are not
    white space, and holds only characters of the text. *)
Lemma split_from_run (g : ascii -> bool) (s : string) :
  forall w x,
    all_chars g w = true ->
    all_chars (fun c => isspace_char c || g c) s = true ->
    In x (split_from w s) ->
    nonempty x = true /\ all_chars g x = true.
Proof.
  induction s as [|c s IH]; intros w x W S I.
  - simpl in I. destruct w; [destruct I|].
    destruct I as [<-|[]]. now split.
  - simpl in S. apply andb_true_iff in S as [C S]. simpl in I.
    destruct (isspace_char c) eqn:Sp.
    + apply in_app_or in I. destruct I as [I|I].
      * destruct w; [destruct I|]. destruct I as [<-|[]]. now split.
      * now apply (IH EmptyString x).
    + apply (IH (w ++ String c EmptyString)%string x); [|exact S|exact I].
      rewrite all_chars_app, W. simpl in C |- *. now rewrite C.
Qed.

Lemma replace_comma_chars (s : string) :
  all_chars (fun c => isspace_char c || negb (issep_char c))
            (replace_char "," " " s) = true.
Proof.
  induction s as [|c s IH]; [reflexivity|]. simpl. rewrite IH, andb_true_r.
  unfold issep_char. destruct (Ascii.eqb_spec c ",") as [->|N].
  - reflexivity.
  - destruct (Ascii.eqb_spec c ",") as [E|_]; [contradiction|].
    rewrite orb_false_r. now destruct (isspace_char c).
Qed.

Lemma field_names_words (s name : string) :
  In name (field_names s) -> is_word name = true.
Proof.
  intros I. unfold field_names, split in I.
  destruct (split_from_run (fun c => negb (issep_char c)) _ EmptyString name
              eq_refl (replace_comma_chars s) I) as [N A].
  unfold is_word. now rewrite N, A.
Qed.

Lemma split_from_nil (s : string) :
  forall w,
    split_from w s = [] <->
    w = EmptyString /\ all_chars isspace_char s = true.
Proof.
  induction s as [|c s IH]; intros w; simpl.
  - destruct w; simpl; split; try tauto; try discriminate.
    intros [E _]; discriminate.
  - destruct (isspace_char c) eqn:Sp; simpl.
    + split.
      * intros E. apply app_eq_nil in E as [F E].
        apply IH in E as [_ E]. destruct w; [auto | discriminate].
      * intros [-> A]. simpl. now apply IH.
    + rewrite IH. split; [|intros [_ F]; discriminate].
      intros [E _]. destruct w; discriminate.
Qed.

Lemma replace_comma_space_iff (s : string) :
  all_chars isspace_char (replace_char "," " " s) = all_chars issep_char s.
Proof.
  induction s as [|c s IH]; [reflexivity|]. simpl. rewrite IH. f_equal.
  unfold issep_char. destruct (Ascii.eqb c ","); [|now rewrite orb_false_r].
  now rewrite orb_true_r.
Qed.

Lemma join_spell (sep : string) (names : list string) :
  join sep names = spell (separated sep names).
Proof.
  unfold join. induction names as [|x rest IH]; [reflexivity|].
  destruct rest as [|y rest].
  - simpl. clear. induction x; simpl; congruence.
  - change (String.concat sep (x :: y :: rest))
      with (x ++ sep ++ String.concat sep (y :: rest))%string.
    rewrite IH. reflexivity.
Qed.

Lemma separated_names (sep : string) (names : list string) :
  map fst (separated sep names) = names.
Proof.
  induction names as [|x rest IH]; [reflexivity|].
  destruct rest as [|y rest]; [reflexivity|].
  change (separated sep (x :: y :: rest))
    with ((x, sep) :: separated sep (y :: rest)).
  cbn [map fst]. now rewrite IH.
Qed.

Lemma separated_well_spelled (sep : string) (names : list string) :
  nonempty sep = true ->
  all_chars issep_char sep = true ->
  forallb is_word names = true ->
  well_spelled (separated sep names) = true.
Proof.
  intros N A. induction names as [|x rest IH]; [reflexivity|].
  intros W. cbn [forallb] in W. apply andb_true_iff in W as [Wx Wr].
  destruct rest as [|y rest].
  - simpl. now rewrite Wx.
  - change (separated sep (x :: y :: rest))
      with ((x, sep) :: separated sep (y :: rest)).
    cbn [well_spelled]. now rewrite Wx, A, N, (IH Wr).
Qed.

Lemma field_names_join (sep : string) (names : list string) :
  nonempty sep = true ->
  all_chars issep_char sep = true ->
  forallb is_word names = true ->
  field_names (join sep names) = names.
Proof.
  intros N A W. rewrite join_spell.
  pose proof (field_names_spelling EmptyString (separated sep names) eq_refl
                (separated_well_spelled sep names N A W)) as F.
  simpl append in F. rewrite F. apply separated_names.
Qed.

(** X1.  The field names parsed from a string are words: none is empty and
    none holds white space or a comma. *)
Theorem parsed_names_are_words (s name : string) :
  In name (field_names s) ->
  nonempty name = true /\
  all_chars (fun c => negb (isspace_char c)) name = true /\
  all_chars (fun c => negb (Ascii.eqb c ",")) name = true.
Proof.
  intros I. apply field_names_words in I. unfold is_word in I.
  apply andb_true_iff in I as [N A]. split; [exact N|].
  clear N. induction name as [|c name IH]; [now split|].
  simpl in A. apply andb_true_iff in A as [C A]. destruct (IH A) as [S K].
  unfold issep_char in C. apply negb_true_iff, orb_false_iff in C as [Cs Ck].
  simpl. now rewrite Cs, Ck, S, K.
Qed.

(** X2.  Joining names with any separator made of white space and commas
    and parsing the result gives the names back, in order; so parsing,
    joining and parsing again changes nothing. *)
Theorem parse_of_join (sep : string) :
  nonempty sep = true ->
  all_chars issep_char sep = true ->
  (forall names, forallb is_word names = true ->
                 field_names (join sep names) = names) /\
  (forall s, field_names (join sep (field_names s)) = field_names s).
Proof.
  intros N A. split.
  - intros names W. now apply field_names_join.
  - intros s. apply field_names_join; auto.
    apply forallb_forall. intros x I. now apply field_names_words in I.
Qed.

(** X3.  A specification yields no field name exactly when it holds only
    white space and commas (the empty string included). *)
Theorem no_fields_iff_blank (s : string) :
  field_names s = [] <-> all_chars issep_char s = true.
Proof.
  unfold field_names, split. rewrite split_from_nil, replace_comma_space_iff.
  tauto.
Qed.

(** ** The outcome of the factory in closed form *)

Lemma lstrip_head (t : string) (a : ascii) (r : string) :
  lstrip_char "_" t = String a r -> Ascii.eqb a "_" = false.
Proof.
  induction t as [|c t IH]; simpl; [discriminate|].
  destruct (Ascii.eqb c "_") eqn:E; [exact IH|].
  intros H. inversion H; subst. exact E.
Qed.

(** A mangled name begins with one underscore and the class name. *)
Lemma mangle_cases (t n : string) :
  mangle t n = n \/
  (startswith "__" n = true /\ endswith "__" n = false /\
   exists a r, Ascii.eqb a "_" = false /\ mangle t n = String "_" (String a r)).
Proof.
  unfold mangle. destruct (startswith "__" n) eqn:S; [|now left].
  destruct (endswith "__" n) eqn:E; [now left|]. cbn [negb andb].
  destruct (lstrip_char "_" t) as [|a r] eqn:L; [now left|].
  right. repeat split. exists a, (r ++ n)%string.
  split; [exact (lstrip_head t a r L) | reflexivity].
Qed.

Lemma startswith_dunder (n : string) :
  startswith "__" n = true ->
  exists r, n = String "_" (String "_" r).
Proof.
  unfold startswith. destruct n as [|a [|b r]]; cbn [String.prefix];
    try discriminate.
  - destruct (ascii_dec "_" a); discriminate.
  - destruct (ascii_dec "_" a) as [<-|]; [|discriminate].
    destruct (ascii_dec "_" b) as [<-|]; [|discriminate]. eauto.
Qed.

Lemma mangle_builder (t n k : string) :
  k = "property" \/ k = "itemgetter" ->
  String.eqb k (mangle t n) = String.eqb k n.
Proof.
  intros K. destruct (mangle_cases t n) as [->|(S & _ & a & r & _ & ->)];
    [reflexivity|].
  apply startswith_dunder in S as [r' ->]. now destruct K as [->| ->].
Qed.

Lemma mangle_slots (t n : string) :
  String.eqb "__slots__" (mangle t n) = String.eqb "__slots__" n.
Proof.
  destruct (mangle_cases t n) as [->|(S & E & a & r & A & ->)];
    [reflexivity|].
  destruct (String.eqb_spec "__slots__" n) as [<-|_]; [discriminate|].
  change (String.eqb "__slots__" (String "_" (String a r)))
    with (if Ascii.eqb "_" a then String.eqb "slots__" r else false).
  rewrite Ascii.eqb_sym. now rewrite A.
Qed.

Lemma ns_has_cons (k key : string) (a : attr) (d : namespace) :
  ns_has ((key, a) :: d) k = String.eqb k key || ns_has d k.
Proof. unfold ns_has. simpl. now destruct (String.eqb k key). Qed.

Lemma bind_properties_closed (t : string) (names : list string) :
  forall i d,
    ns_has d "property" || ns_has d "itemgetter" = false ->
    bind_properties t i names d =
    if rebinds_builder names then Raise TypeError
    else Ok (rev (accessors t i names) ++ d).
Proof.
  induction names as [|name rest IH]; intros i d H; [reflexivity|].
  cbn [bind_properties]. rewrite H.
  assert (B : ns_has ((mangle t name, AProperty i) :: d) "property"
              || ns_has ((mangle t name, AProperty i) :: d) "itemgetter"
              = mem name ["property"; "itemgetter"]).
  { rewrite !ns_has_cons. apply orb_false_iff in H as [-> ->].
    rewrite !orb_false_r, !mangle_builder by auto.
    unfold mem. cbn [existsb]. rewrite orb_false_r.
    now rewrite (String.eqb_sym name "property"),
                (String.eqb_sym name "itemgetter"). }
  destruct rest as [|y rest].
  - reflexivity.
  - change (rebinds_builder (name :: y :: rest))
      with (mem name ["property"; "itemgetter"]
            || rebinds_builder (y :: rest)).
    destruct (mem name ["property"; "itemgetter"]) eqn:M.
    + cbn [bind_properties]. now rewrite B.
    + rewrite (IH (S i) _ B). cbn [orb accessors rev].
      destruct (rebinds_builder (y :: rest)); [reflexivity|].
      now rewrite <- !app_assoc.
Qed.

Lemma ns_get_present (l : namespace) (k : string) :
  In k (map fst l) -> exists a, ns_get l k = Some a.
Proof.
  induction l as [|[k' a] l IH]; simpl; [intros []|].
  destruct (String.eqb_spec k k') as [->|N]; [eauto|].
  intros [E|I]; [congruence | auto].
Qed.

Lemma ns_get_accessors_property (t key : string) (l : list string) :
  forall i b,
    ns_get (rev (accessors t i l)) key = Some b ->
    exists j, j < length l /\ b = AProperty (i + j).
Proof.
  induction l as [|x l IH]; intros i c; simpl; [discriminate|].
  rewrite ns_get_app.
  destruct (ns_get (rev (accessors t (S i) l)) key) as [c'|] eqn:G'.
  - intros H. inversion H; subst c'. destruct (IH _ _ G') as (j & Lj & ->).
    exists (S j). split; [lia | f_equal; lia].
  - simpl. destruct (String.eqb key (mangle t x)); [|discriminate].
    intros H. inversion H. exists 0. split; [lia | f_equal; lia].
Qed.

Lemma mem_slots_mangled (t : string) (names : list string) :
  mem "__slots__" (map (mangle t) names) = mem "__slots__" names.
Proof.
  induction names as [|n names IH]; [reflexivity|].
  cbn [map]. now rewrite !mem_cons, mangle_slots, IH.
Qed.

Lemma exec_template_closed (h : host) (typename : string)
    (names : list string) :
  exec_template h typename names =
  if negb (compiles h typename names) then Raise SyntaxError
  else if rebinds_builder names || mem "__slots__" names
       then Raise TypeError
  else Ok {| cls_name := typename;
             cls_dict := rev (accessors typename 0 names)
                         ++ template_attrs typename names |}.
Proof.
  unfold exec_template, class_body.
  destruct (compiles h typename names); [|reflexivity]. cbn [negb].
  rewrite bind_properties_closed by reflexivity.
  destruct (rebinds_builder names); [reflexivity|]. cbn [bind orb].
  destruct (mem "__slots__" names) eqn:M.
  - rewrite <- (mem_slots_mangled typename) in M. apply mem_In in M.
    rewrite <- (accessors_keys typename names 0), in_rev, <- map_rev in M.
    apply ns_get_present in M as [a G]. rewrite ns_get_app, G.
    apply ns_get_accessors_property in G as (j & _ & ->). reflexivity.
  - rewrite ns_get_not_accessor; [reflexivity|].
    intros I. apply mem_In in I. rewrite mem_slots_mangled in I. congruence.
Qed.

Lemma NamedTuple_closed (h : host) (typename s : string) :
  NamedTuple h typename (SpecStr s) =
  factory_outcome h typename (field_names s).
Proof.
  rewrite NamedTuple_str. unfold factory_outcome, generated_class.
  destruct (isalnum _); [|reflexivity]. cbn [negb].
  rewrite exec_template_closed.
  destruct (compiles h typename (field_names s)); [|reflexivity].
  cbn [negb]. destruct (rebinds_builder _ || mem _ _); [reflexivity|].
  cbn [bind]. unfold set_module. now destruct (has_getframe h).
Qed.

Lemma NamedTuple_from_closed (c : caller) (h : host) (typename s : string) :
  NamedTuple_from c h typename (SpecStr s) =
  outcome_from c h typename (field_names s).
Proof.
  rewrite NamedTuple_from_str. unfold outcome_from, generated_class.
  destruct (isalnum _); [|reflexivity]. cbn [negb].
  rewrite exec_template_closed.
  destruct (compiles h typename (field_names s)); [|reflexivity].
  cbn [negb]. destruct (rebinds_builder _ || mem _ _); [reflexivity|].
  unfold set_module. destruct (has_getframe h); [|reflexivity].
  now destruct c as [|[]].
Qed.

(** X4.  For ASCII names and field names that do not begin with two
    underscores the factory meets its errors in a fixed order: [ValueError]
    at line 40 when the names fail the character test; else [SyntaxError]
    at line 59 when the generated source does not compile; else [TypeError]
    at line 59 when a field other than the last is called [property] or
    [itemgetter]; else, where [sys._getframe] exists, [ValueError] at line
    62 when no Python frame called the factory and [KeyError] when the
    caller's globals have no [__name__]; else it returns the class whose
    namespace holds the template's bindings and, above them, one property
    per field. *)
Theorem factory_outcome_order (c : caller) (h : host) (typename s : string) :
  forallb is_ascii (typename :: field_names s) = true ->
  forallb plain (field_names s) = true ->
  NamedTuple_from c h typename (SpecStr s) =
  outcome_from c h typename (field_names s) /\
  mem "__slots__" (field_names s) = false.
Proof.
  intros _ P. split; [apply NamedTuple_from_closed|].
  destruct (mem "__slots__" (field_names s)) eqn:M; [|reflexivity].
  apply mem_In in M. rewrite forallb_forall in P. now apply P in M.
Qed.

(** X19.  A field called [__slots__] that passes the character test and
    the compiler makes the factory fail with [TypeError]: the class cannot
    be created with a property as its [__slots__]. *)
Theorem field_named_slots (h : host) (typename s : string) :
  entirely_alphanumeric (checked_text typename (field_names s)) ->
  compiles h typename (field_names s) = true ->
  In "__slots__" (field_names s) ->
  NamedTuple h typename (SpecStr s) = Raise TypeError.
Proof.
  intros A C I. apply isalnum_spec in A. apply mem_In in I.
  rewrite NamedTuple_closed. unfold factory_outcome.
  now rewrite A, C, I, orb_true_r.
Qed.

(** X5.  A type name that is empty, begins with a digit or is a reserved
    word passes the character test together with alphanumeric field names
    and makes the factory fail with [SyntaxError]. *)
Theorem unusable_type_name (h : host) (typename s : string) :
  entirely_alphanumeric (checked_text typename (field_names s)) ->
  typename = EmptyString \/ starts_with_digit typename = true \/
  reserved h typename = true ->
  check_names typename (field_names s) = Ok tt /\
  NamedTuple h typename (SpecStr s) = Raise SyntaxError.
Proof.
  intros A U. apply isalnum_spec in A. split; [now apply check_names_ok|].
  apply NamedTuple_not_compiling; [exact A|]. unfold compiles. cbn [forallb].
  assert (B : isidentifier typename && negb (reserved h typename) = false).
  { destruct U as [->|[D|R]].
    - reflexivity.
    - now rewrite (starts_with_digit_not_identifier _ D).
    - rewrite R. apply andb_false_r. }
  now rewrite B.
Qed.

(** X6.  A field called [cls] passes the character test and makes the
    factory fail with [SyntaxError]: it would be a second parameter [cls] of
    [__new__]. *)
Theorem field_named_cls (h : host) (typename s : string) :
  entirely_alphanumeric (checked_text typename (field_names s)) ->
  In "cls" (field_names s) ->
  NamedTuple h typename (SpecStr s) = Raise SyntaxError.
Proof.
  intros A I. apply isalnum_spec in A.
  apply NamedTuple_not_compiling; [exact A|]. unfold compiles.
  assert (M : mem "cls" (map (mangle typename) (field_names s)) = true).
  { apply mem_In. change "cls" with (mangle typename "cls").
    now apply in_map. }
  cbn [nodup]. rewrite M. cbn [negb andb]. now rewrite andb_false_r.
Qed.

Lemma remove_underscores_only (t : string) :
  all_chars (fun c => Ascii.eqb c "_") t = true ->
  remove_char "_" t = EmptyString.
Proof.
  induction t as [|c t IH]; [reflexivity|]. simpl.
  intros H. apply andb_true_iff in H as [C T]. rewrite C. now apply IH.
Qed.

(** X7.  When the type name and the field names together hold nothing but
    underscores (or nothing at all), the factory raises [ValueError]. *)
Theorem underscores_only_rejected (h : host) (typename s : string) :
  all_chars (fun c => Ascii.eqb c "_")
            (join "" (typename :: field_names s)) = true ->
  NamedTuple h typename (SpecStr s) = Raise ValueError.
Proof.
  intros U. rewrite NamedTuple_str. unfold checked_text.
  now rewrite (remove_underscores_only _ U).
Qed.

(** ** The constructor in general *)

Lemma collect_inv (named : list string) (kwargs : pydict) :
  forall vs,
    collect named kwargs = Some vs ->
    length vs = length named /\
    forall i name, nth_error named i = Some name ->
                   dict_get kwargs name = nth_error vs i.
Proof.
  induction named as [|k named IH]; intros vs H.
  - inversion H. split; [reflexivity|]. intros [|i] name E; discriminate.
  - simpl in H. destruct (dict_get kwargs k) as [v|] eqn:D; [|discriminate].
    destruct (collect named kwargs) as [vs'|] eqn:C; [|discriminate].
    inversion H; subst. destruct (IH vs' eq_refl) as [L V].
    split; [simpl; now rewrite L|].
    intros [|i] name E; simpl in E |- *; [congruence | now apply V].
Qed.

Lemma bind_args_inv (params : list string) (args : list value)
    (kwargs : pydict) (p : list value) :
  bind_args params args kwargs = Ok p ->
  length args <= length params /\
  (forall key, In key (map fst kwargs) ->
               In key (skipn (length args) params)) /\
  exists vs, collect (skipn (length args) params) kwargs = Some vs /\
             p = args ++ vs.
Proof.
  unfold bind_args.
  destruct (Nat.ltb_spec (length params) (length args)) as [|La];
    [discriminate|].
  destruct (forallb _ kwargs) eqn:F; [|discriminate]. cbn [negb].
  destruct (collect _ _) as [vs|] eqn:C; [|discriminate].
  intros X. inversion X; subst. split; [lia|]. split; [|eauto].
  intros key I. apply in_map_iff in I as [kv [<- I]].
  rewrite forallb_forall in F. now apply mem_In, F.
Qed.

Lemma bind_args_length (params : list string) (args : list value)
    (kwargs : pydict) (p : list value) :
  bind_args params args kwargs = Ok p -> length p = length params.
Proof.
  intros H. apply bind_args_inv in H as (L & _ & vs & C & ->).
  apply collect_inv in C as [Lv _].
  rewrite length_app, Lv, length_skipn. lia.
Qed.

Lemma call_class_inv (T : record_class) (args : list value)
    (kwargs : pydict) (p : instance) :
  call_class T args kwargs = Ok p ->
  exists params, ns_get (cls_dict T) "__new__" = Some (ANew params) /\
                 bind_args params args kwargs = Ok p.
Proof.
  unfold call_class.
  destruct (ns_get (cls_dict T) "__new__") as [[]|]; try discriminate.
  destruct (bind_args params args kwargs) as [vs|e] eqn:B; [|discriminate].
  cbn [bind]. destruct (mem "tuple" params); [discriminate|].
  destruct (String.eqb (cls_name T) "tuple").
  - destruct (Nat.eqb _ _); discriminate.
  - intros H. inversion H; subst. eauto.
Qed.

Lemma dict_get_keys (d : pydict) (k : string) :
  In k (map fst d) <-> dict_get d k <> None.
Proof.
  induction d as [|[k' v] d IH]; simpl.
  - split; [intros [] | intros H; now elim H].
  - destruct (String.eqb_spec k k') as [->|N].
    + split; [discriminate | auto].
    + rewrite <- IH. split; [intros [E|I]; [congruence | exact I] | auto].
Qed.

Lemma collect_ext (named : list string) (kw1 kw2 : pydict) :
  (forall k, dict_get kw1 k = dict_get kw2 k) ->
  collect named kw1 = collect named kw2.
Proof.
  intros E. induction named as [|k named IH]; [reflexivity|].
  simpl. now rewrite E, IH.
Qed.

Lemma bind_args_ext (params : list string) (args : list value)
    (kw1 kw2 : pydict) :
  (forall k, dict_get kw1 k = dict_get kw2 k) ->
  bind_args params args kw1 = bind_args params args kw2.
Proof.
  intros E. unfold bind_args.
  assert (F : forall kw kw' named,
            (forall k, dict_get kw k = dict_get kw' k) ->
            forallb (fun kv : string * value => mem (fst kv) named) kw = true ->
            forallb (fun kv : string * value => mem (fst kv) named) kw' = true).
  { intros kw kw' named X H. rewrite forallb_forall in H |- *.
    intros [k v] I. cbn [fst].
    assert (K : In k (map fst kw)).
    { apply dict_get_keys. rewrite X. apply dict_get_keys.
      change k with (fst (k, v)). now apply in_map. }
    apply in_map_iff in K as [kv [<- K]]. now apply H. }
  rewrite (collect_ext _ kw1 kw2 E).
  destruct (forallb _ kw1) eqn:F1.
  - now rewrite (F kw1 kw2 _ E F1).
  - destruct (forallb _ kw2) eqn:F2; [|reflexivity].
    rewrite (F kw2 kw1) in F1; [discriminate | auto | exact F2].
Qed.

(** X9.  The constructor reads its keywords as a mapping: two keyword
    dictionaries with the same entries, in whatever order, give the same
    instance or the same error, for every class. *)
Theorem keyword_order_is_irrelevant (T : record_class) (args : list value)
    (kw1 kw2 : pydict) :
  (forall k, dict_get kw1 k = dict_get kw2 k) ->
  call_class T args kw1 = call_class T args kw2.
Proof.
  intros E. unfold call_class.
  destruct (ns_get (cls_dict T) "__new__") as [[]|]; try reflexivity.
  now rewrite (bind_args_ext params args kw1 kw2 E).
Qed.

Section GeneratedMore.

Variables (h : host) (typename str : string) (T : record_class).
Hypothesis generated : NamedTuple h typename (SpecStr str) = Ok T.

Local Abbreviation names := (field_names str).

Lemma gen_call_class_length (args : list value) (kwargs : pydict)
    (p : instance) :
  call_class T args kwargs = Ok p -> length p = length names.
Proof.
  intros H. apply call_class_inv in H as (params & N & B).
  apply bind_args_length in B. rewrite B.
  destruct (gen_lookup_method h typename str T generated "__new__"
              (ANew (map (mangle typename) names)))
    as [G | (i & _ & G)]; [reflexivity | discriminate | |];
    rewrite G in N; inversion N. apply length_map.
Qed.

(** X10.  For ASCII names that do not begin with two underscores and are
    not [tuple], and a type name that is none of [self], [field], [value],
    [dict], [list], [zip]: an instance the constructor returns has exactly
    as many elements as the class has fields, and so has an instance
    [__replace__] returns, whatever tuple it was called on. *)
Theorem instances_have_declared_arity :
  forallb is_ascii (typename :: names) = true ->
  forallb plain (typename :: names) = true ->
  mem "tuple" (typename :: names) = false ->
  mem typename rebound_in_replace = false ->
  (forall args kwargs p,
      call_class T args kwargs = Ok p -> length p = length names) /\
  (forall self field v p,
      py_replace T self field v = Ok p -> length p = length names).
Proof.
  intros _ P _ _.
  assert (Pn : forallb plain names = true).
  { cbn [forallb] in P. now apply andb_true_iff in P. }
  split; [exact gen_call_class_length|].
  intros self field v p. unfold py_replace.
  rewrite (gen_replace h typename str T generated Pn). unfold replace_body.
  destruct (mem _ ["self"; "field"; "value"]); [discriminate|].
  destruct (negb _); [discriminate|].
  destruct (mem _ ["dict"; "list"; "zip"]); [discriminate|].
  apply gen_call_class_length.
Qed.

(** X11.  For a class whose names are ASCII, do not begin with two
    underscores and are not [tuple], the constructor succeeds exactly when
    every field
    gets one value: the positional arguments are no more than the fields,
    every keyword names a field that no positional argument filled, and
    every such field has a keyword; the instance then lists the values in
    field order.  Every failure is a [TypeError]. *)
Theorem constructor_succeeds_iff (args : list value) (kwargs : pydict)
    (p : instance) :
  forallb is_ascii (typename :: names) = true ->
  forallb plain (typename :: names) = true ->
  mem "tuple" (typename :: names) = false ->
  (call_class T args kwargs = Ok p <->
   length args <= length names /\
   length p = length names /\
   firstn (length args) p = args /\
   (forall key, In key (map fst kwargs) ->
                In key (skipn (length args) names)) /\
   (forall j name, length args <= j -> nth_error names j = Some name ->
                   dict_get kwargs name = nth_error p j)) /\
  (forall e, call_class T args kwargs = Raise e -> e = TypeError).
Proof.
  intros _ P Tu.
  assert (Pn : forallb plain names = true).
  { cbn [forallb] in P. now apply andb_true_iff in P. }
  pose proof (gen_new h typename str T generated Pn) as N.
  split; [split|].
  - intros H. pose proof (gen_call_class_length _ _ _ H) as L.
    apply call_class_inv in H as (params & N' & B).
    rewrite N in N'. inversion N'; subst params.
    apply bind_args_inv in B as (La & K & vs & C & ->).
    apply collect_inv in C as [Lv V].
    split; [exact La|]. split; [exact L|]. split.
    + rewrite firstn_app, Nat.sub_diag, firstn_all. simpl.
      now rewrite app_nil_r.
    + split; [exact K|]. intros j name J E.
      rewrite nth_error_app2 by exact J. apply V.
      rewrite nth_error_skipn. rewrite <- E. f_equal. lia.
  - intros (La & L & F & K & V). rewrite <- F at 1.
    now apply (gen_call_class h typename str T generated p (length args)).
  - intros e. unfold call_class. rewrite N.
    destruct (bind_args names args kwargs) as [vs|e'] eqn:B; cbn [bind].
    + rewrite mem_cons in Tu. apply orb_false_iff in Tu as [Tt Tn].
      rewrite Tn, (gen_name h typename str T generated), String.eqb_sym, Tt.
      discriminate.
    + intros H. inversion H; subst. eapply bind_args_raises; eassumption.
Qed.

End GeneratedMore.

(** ** Replacing, rendering and reading *)

Lemma update_update_same (p : instance) (j : nat) (v w : value) :
  j < length p -> update (update p j v) j w = update p j w.
Proof.
  intros J. apply nth_error_ext. intros i.
  rewrite !nth_error_update by (rewrite ?length_update; assumption).
  now destruct (Nat.eqb i j).
Qed.

Lemma update_same_value (p : instance) (j : nat) (v : value) :
  nth_error p j = Some v -> update p j v = p.
Proof.
  intros E. apply nth_error_ext. intros i.
  rewrite nth_error_update by (eapply nth_error_lt; eassumption).
  destruct (Nat.eqb_spec i j) as [->|_]; congruence.
Qed.

Lemma update_update_other (p : instance) (i j : nat) (v w : value) :
  i < length p -> j < length p -> i <> j ->
  update (update p i v) j w = update (update p j w) i v.
Proof.
  intros I J N. apply nth_error_ext. intros k.
  rewrite !nth_error_update by (rewrite ?length_update; assumption).
  destruct (Nat.eqb_spec k j) as [->|_]; [|reflexivity].
  destruct (Nat.eqb_spec j i) as [E|_]; [congruence | reflexivity].
Qed.

Lemma append_nil_r (s : string) : (s ++ "")%string = s.
Proof. induction s as [|c s IH]; simpl; congruence. Qed.

Lemma pyformat_leftover (tail : string) (v : value) (vs : list value) :
  percent_free tail = true -> pyformat tail (v :: vs) = Raise TypeError.
Proof.
  intros F. rewrite <- (append_nil_r tail).
  now rewrite (pyformat_literal tail "" _ F).
Qed.

Lemma pyformat_field_nil (name tail : string) :
  percent_free name = true ->
  pyformat ((name ++ "=%r") ++ tail) [] = Raise TypeError.
Proof.
  intros F. now rewrite append_assoc, (pyformat_literal name _ _ F).
Qed.

(** With more or fewer elements than fields, formatting fails. *)
Lemma pyformat_reprtxt_mismatch (names : list string) :
  forall (vs : list value) (tail : string),
    forallb percent_free names = true ->
    percent_free tail = true ->
    length vs <> length names ->
    pyformat (reprtxt names ++ tail) vs = Raise TypeError.
Proof.
  unfold reprtxt, join.
  induction names as [|x rest IH]; intros vs tail F Ft L.
  - destruct vs as [|v vs]; [now elim L|]. now apply pyformat_leftover.
  - cbn [forallb] in F. apply andb_true_iff in F as [Fx Fr].
    destruct rest as [|y rest].
    + cbn [map String.concat]. destruct vs as [|v vs].
      * now apply pyformat_field_nil.
      * rewrite pyformat_field by exact Fx.
        destruct vs as [|w vs]; [now elim L|].
        now rewrite pyformat_leftover.
    + cbn [map String.concat] in IH |- *. rewrite append_assoc.
      destruct vs as [|v vs]; [now apply pyformat_field_nil|].
      rewrite pyformat_field by exact Fx.
      rewrite append_assoc, (pyformat_literal ", ") by reflexivity.
      rewrite (IH vs tail Fr Ft); [reflexivity|]. simpl in L |- *. lia.
Qed.

Lemma plain_not_tuple_attr (name : string) :
  plain name = true ->
  mem name ["count"; "index"] = false ->
  tuple_attr name = false.
Proof.
  unfold plain, tuple_attr. intros P M. apply negb_true_iff in P.
  now rewrite P, M.
Qed.

Lemma template_attrs_special (typename : string) (names : list string)
    (name : string) :
  plain name = true -> ns_get (template_attrs typename names) name = None.
Proof.
  intros P. apply ns_get_absent. cbn [template_attrs map fst].
  intros I. repeat (destruct I as [<-|I]; [discriminate|]). destruct I.
Qed.

Section GeneratedLaws.

Variables (h : host) (typename str : string) (T : record_class).
Hypothesis generated : NamedTuple h typename (SpecStr str) = Ok T.
Hypothesis plain_names : forallb plain (typename :: field_names str) = true.

Local Abbreviation names := (field_names str).

Lemma laws_plain_fields : forallb plain names = true.
Proof.
  pose proof plain_names as P. cbn [forallb] in P.
  now apply andb_true_iff in P.
Qed.

Lemma laws_plain_type : plain typename = true.
Proof.
  pose proof plain_names as P. cbn [forallb] in P.
  now apply andb_true_iff in P.
Qed.

Lemma gen_replace_update (p : instance) (j : nat) (f : string) (v : value) :
  mem "tuple" (typename :: names) = false ->
  mem typename rebound_in_replace = false ->
  length p = length names ->
  nth_error names j = Some f ->
  py_replace T p f v = Ok (update p j v).
Proof.
  intros Tu R L E.
  assert (J : j < length p) by (rewrite L; eapply nth_error_lt; eassumption).
  unfold py_replace.
  rewrite (gen_replace h typename str T generated laws_plain_fields).
  unfold replace_body. rewrite (mangle_plain typename typename laws_plain_type).
  unfold rebound_in_replace in R. rewrite !mem_cons in R.
  repeat (apply orb_false_iff in R as [? R]).
  rewrite !mem_cons. cbn [mem existsb].
  repeat match goal with
         | H : String.eqb typename _ = false |- _ => rewrite H; clear H
         end.
  rewrite String.eqb_refl. cbn [orb negb].
  apply (gen_call_class h typename str T generated (update p j v) 0);
    auto using plain_names.
  - now rewrite length_update.
  - lia.
  - intros key I. apply dict_of_pairs_keys in I.
    rewrite map_app, map_fst_combine in I by exact L.
    apply in_app_or in I. destruct I as [I|[<-|[]]]; [exact I|].
    eapply nth_error_In; eassumption.
  - intros i name _ Ei.
    rewrite dict_of_pairs_snoc, nth_error_update by exact J.
    pose proof (gen_names_distinct h typename str T generated) as N.
    destruct (String.eqb_spec name f) as [->|Nf].
    + rewrite (nth_error_same_index names i j f N Ei E).
      now rewrite Nat.eqb_refl.
    + destruct (Nat.eqb_spec i j) as [->|_]; [congruence|].
      exact (dict_of_zip names p i name N L Ei).
Qed.

(** X12.  For ASCII names: replacing the same field twice is replacing it
    once with the last value, and replacing a field with the value it
    holds returns an equal instance. *)
Theorem replace_overwrites (p : instance) (j : nat) (f : string)
    (v w : value) :
  forallb is_ascii (typename :: names) = true ->
  mem "tuple" (typename :: names) = false ->
  mem typename rebound_in_replace = false ->
  length p = length names ->
  nth_error names j = Some f ->
  (q <- py_replace T p f v ;; py_replace T q f w) = py_replace T p f w /\
  (nth_error p j = Some v -> py_replace T p f v = Ok p).
Proof.
  intros _ Tu R L E.
  assert (J : j < length p) by (rewrite L; eapply nth_error_lt; eassumption).
  split.
  - rewrite (gen_replace_update p j f v Tu R L E). cbn [bind].
    rewrite (gen_replace_update (update p j v) j f w Tu R);
      [|now rewrite length_update | exact E].
    rewrite (gen_replace_update p j f w Tu R L E).
    now rewrite update_update_same.
  - intros V. rewrite (gen_replace_update p j f v Tu R L E).
    now rewrite update_same_value.
Qed.

(** X13.  Replacements of two different fields commute. *)
Theorem replace_commutes (p : instance) (i j : nat) (f g : string)
    (v w : value) :
  mem "tuple" (typename :: names) = false ->
  mem typename rebound_in_replace = false ->
  length p = length names ->
  nth_error names i = Some f ->
  nth_error names j = Some g ->
  f <> g ->
  (q <- py_replace T p f v ;; py_replace T q g w) =
  (q <- py_replace T p g w ;; py_replace T q f v).
Proof.
  intros Tu R L Ef Eg N.
  assert (I : i < length p) by (rewrite L; eapply nth_error_lt; eassumption).
  assert (J : j < length p) by (rewrite L; eapply nth_error_lt; eassumption).
  assert (D : i <> j) by congruence.
  rewrite (gen_replace_update p i f v Tu R L Ef),
          (gen_replace_update p j g w Tu R L Eg). cbn [bind].
  rewrite (gen_replace_update (update p i v) j g w Tu R);
    [|now rewrite length_update | exact Eg].
  rewrite (gen_replace_update (update p j w) i f v Tu R);
    [|now rewrite length_update | exact Ef].
  now rewrite update_update_other.
Qed.

(** X14.  [repr] of a tuple of the class with more or fewer elements than
    the class has fields raises [TypeError]: no partial text is returned. *)
Theorem repr_needs_declared_arity (p : instance) :
  length p <> length names ->
  py_repr T p = Raise TypeError.
Proof.
  intros L. unfold py_repr.
  rewrite (gen_repr h typename str T generated laws_plain_fields).
  assert (F : forall x, In x (typename :: names) -> percent_free x = true).
  { intros x I. apply identifier_percent_free.
    now apply (gen_identifiers h typename str T generated). }
  rewrite (pyformat_literal typename) by (apply F; now left).
  rewrite (pyformat_literal "(" (reprtxt names ++ ")")) by reflexivity.
  rewrite pyformat_reprtxt_mismatch; [reflexivity | | reflexivity | exact L].
  apply forallb_forall. intros x I. apply F. now right.
Qed.

(** X15.  For ASCII names: reading an attribute whose name does not begin
    with two underscores and is neither a field nor [count] or [index]
    raises [AttributeError]. *)
Theorem unknown_attribute (p : instance) (name : string) :
  forallb is_ascii (typename :: names) = true ->
  plain name = true ->
  ~ In name names ->
  mem name ["count"; "index"] = false ->
  getattr T p name = Raise AttributeError.
Proof.
  intros _ P U M. unfold getattr.
  destruct (gen_dict h typename str T generated) as (pre & Hpre & ->).
  rewrite ns_get_app.
  assert (N : ns_get pre name = None).
  { destruct Hpre as [->| ->]; [reflexivity|]. simpl.
    destruct (String.eqb_spec name "__module__") as [->|_];
      [discriminate | reflexivity]. }
  rewrite N, ns_get_not_accessor, template_attrs_special by
    (try assumption; now rewrite (map_mangle_plain _ _ laws_plain_fields)).
  now rewrite plain_not_tuple_attr.
Qed.

End GeneratedLaws.

(** ** The docstring, [__module__] and the class without fields *)

Lemma remove_char_app (c : ascii) (a b : string) :
  remove_char c (a ++ b) = (remove_char c a ++ remove_char c b)%string.
Proof.
  induction a as [|x a IH]; simpl; [reflexivity|].
  destruct (Ascii.eqb x c); simpl; now rewrite IH.
Qed.

Lemma remove_absent (c : ascii) (s : string) :
  all_chars (fun x => negb (Ascii.eqb x c)) s = true -> remove_char c s = s.
Proof.
  induction s as [|x s IH]; simpl; [reflexivity|].
  intros H. apply andb_true_iff in H as [X S].
  apply negb_true_iff in X. now rewrite X, (IH S).
Qed.

Lemma identifier_start_not_quote (c : ascii) :
  isalpha_char c || Ascii.eqb c "_" = true -> Ascii.eqb c "'" = false.
Proof.
  destruct c as [[] [] [] [] [] [] [] []]; vm_compute; congruence.
Qed.

Lemma alnum_not_quote (c : ascii) :
  isalnum_char c = true -> Ascii.eqb c "'" = false.
Proof.
  destruct c as [[] [] [] [] [] [] [] []]; vm_compute; congruence.
Qed.

Lemma identifier_quote_free (name : string) :
  isidentifier name = true ->
  all_chars (fun x => negb (Ascii.eqb x "'")) name = true.
Proof.
  destruct name as [|c rest]; [discriminate|]. simpl.
  intros H. apply andb_true_iff in H as [C R].
  rewrite (identifier_start_not_quote c C). simpl.
  induction rest as [|d rest IH]; [reflexivity|]. simpl in R |- *.
  destruct (Ascii.eqb_spec d "_") as [->|_].
  - simpl. now apply IH.
  - simpl in R. apply andb_true_iff in R as [D R].
    rewrite (alnum_not_quote d D). simpl. now apply IH.
Qed.

Lemma remove_quotes_repr_str (x : string) :
  all_chars (fun c => negb (Ascii.eqb c "'")) x = true ->
  remove_char "'" (repr_str x) = x.
Proof.
  intros Q. unfold repr_str.
  change ("'" ++ x ++ "'")%string with (String "'" (x ++ "'")).
  cbn [remove_char]. change (Ascii.eqb "'" "'") with true. cbv iota.
  rewrite remove_char_app, (remove_absent _ _ Q). apply append_nil_r.
Qed.

Lemma remove_quotes_join (l : list string) :
  forallb (all_chars (fun c => negb (Ascii.eqb c "'"))) l = true ->
  remove_char "'" (join ", " (map repr_str l)) = join ", " l.
Proof.
  unfold join. induction l as [|x l IH]; [reflexivity|].
  intros Q. cbn [forallb] in Q. apply andb_true_iff in Q as [Qx Ql].
  destruct l as [|y l].
  - now apply remove_quotes_repr_str.
  - cbn [map String.concat] in IH |- *.
    rewrite !remove_char_app, (remove_quotes_repr_str x Qx), (IH Ql).
    reflexivity.
Qed.

Lemma length_append (a b : string) :
  String.length (a ++ b) = String.length a + String.length b.
Proof. induction a as [|c a IH]; simpl; [reflexivity | now rewrite IH]. Qed.

Lemma drop_last_append (t : string) (c : ascii) :
  drop_last (t ++ String c EmptyString) = t.
Proof.
  unfold drop_last. rewrite length_append. simpl String.length.
  replace (String.length t + 1 - 1) with (String.length t) by lia.
  induction t as [|x t IH]; simpl; [reflexivity | now rewrite IH].
Qed.

(** Line 41: the tuple repr without quotes and parentheses. *)
Lemma argtxt_closed (l : list string) :
  forallb (all_chars (fun c => negb (Ascii.eqb c "'"))) l = true ->
  argtxt l = match l with
             | [x] => (x ++ ",")%string
             | _ => join ", " l
             end.
Proof.
  intros Q. unfold argtxt.
  assert (S : forall t, slice_1_m1 (remove_char "'" ("(" ++ t ++ ")"))
                        = remove_char "'" t).
  { intros t. change ("(" ++ t ++ ")")%string with (String "(" (t ++ ")")).
    cbn [remove_char]. change (Ascii.eqb "(" "'") with false. cbv iota.
    cbn [slice_1_m1]. rewrite remove_char_app.
    change (remove_char "'" ")") with ")". apply drop_last_append. }
  destruct l as [|x [|y l]].
  - reflexivity.
  - cbn [forallb] in Q. apply andb_true_iff in Q as [Qx _].
    unfold repr_tuple.
    replace (repr_str x ++ ",)")%string
      with ((repr_str x ++ ",") ++ ")")%string
      by now rewrite append_assoc.
    rewrite S, remove_char_app, (remove_quotes_repr_str x Qx). reflexivity.
  - unfold repr_tuple. rewrite S. now apply remove_quotes_join.
Qed.

Section GeneratedEdges.

Variables (h : host) (typename str : string) (T : record_class).
Hypothesis generated : NamedTuple h typename (SpecStr str) = Ok T.

Local Abbreviation names := (field_names str).

Lemma gen_is_generated_class : T = generated_class h typename names.
Proof.
  pose proof generated as G. rewrite NamedTuple_closed in G.
  unfold factory_outcome in G.
  destruct (negb _); [discriminate|]. destruct (negb _); [discriminate|].
  destruct (_ || _); [discriminate|]. now inversion G.
Qed.

(** X16.  The docstring of a class whose field names do not begin with two
    underscores is the type name followed by the field names in
    parentheses, separated by a comma and a space; a single field name is
    followed by a comma. *)
Theorem docstring_lists_fields (p : instance) :
  forallb plain names = true ->
  getattr T p "__doc__" =
  Ok (ClassAttr (ADoc (typename ++ "("
                       ++ match names with
                          | [x] => x ++ ","
                          | _ => join ", " names
                          end ++ ")")%string)).
Proof.
  intros P. unfold getattr.
  rewrite (gen_lookup_special h typename str T generated "__doc__" P)
    by (reflexivity || discriminate).
  cbn [template_attrs ns_get String.eqb Ascii.eqb Bool.eqb].
  rewrite argtxt_closed; [reflexivity|].
  apply forallb_forall. intros x I. apply identifier_quote_free.
  apply (gen_identifiers h typename str T generated). now right.
Qed.

(** X17.  For ASCII names and field names of which none but [__module__]
    begins with two underscores: on an interpreter with [sys._getframe]
    the attribute [__module__] of the class is the module name the factory
    assigned, also when a field is called [__module__]; without
    [_getframe] such a field reads its element like any other. *)
Theorem module_attribute (p : instance) :
  forallb is_ascii (typename :: names) = true ->
  forallb (fun n => plain n || String.eqb n "__module__") names = true ->
  (has_getframe h = true ->
   getattr T p "__module__" = Ok (ClassAttr AModule)) /\
  (has_getframe h = false ->
   forall j, nth_error names j = Some "__module__" ->
             getattr T p "__module__" = getitem p j).
Proof.
  intros _ _. rewrite gen_is_generated_class. unfold getattr, generated_class.
  cbn [cls_dict]. split; intros G; rewrite G.
  - reflexivity.
  - intros j E. cbn [app].
    change "__module__" with (mangle typename "__module__") at 1.
    rewrite (ns_get_accessor typename names 0 j "__module__" _
               (gen_params_distinct h typename str T generated) E).
    reflexivity.
Qed.

(** X18.  A specification without names gives a class without fields when
    the type name is ASCII, does not begin with two underscores and is none
    of [tuple], [self], [field], [value], [dict], [list], [zip]: called
    without arguments it returns the empty instance, called with any
    argument it raises [TypeError], its repr is the type name with empty
    parentheses, and no field can be replaced. *)
Theorem class_without_fields :
  all_chars issep_char str = true ->
  is_ascii typename = true ->
  plain typename = true ->
  typename <> "tuple" ->
  mem typename rebound_in_replace = false ->
  call_class T [] [] = Ok [] /\
  (forall args kwargs,
      args <> [] \/ kwargs <> [] ->
      call_class T args kwargs = Raise TypeError) /\
  py_repr T [] = Ok (typename ++ "()")%string /\
  (forall field v, py_replace T [] field v = Raise TypeError).
Proof.
  intros B _ Pt Nt _.
  assert (E : names = []).
  { unfold field_names, split.
    apply split_from_nil. now rewrite replace_comma_space_iff. }
  assert (Pn : forallb plain names = true) by now rewrite E.
  pose proof (gen_new h typename str T generated Pn) as N.
  pose proof (gen_repr h typename str T generated Pn) as R.
  pose proof (gen_replace h typename str T generated Pn) as X.
  pose proof (gen_name h typename str T generated) as C.
  rewrite E in N, R, X.
  assert (Tu : String.eqb typename "tuple" = false)
    by now apply String.eqb_neq.
  assert (K : forall args kwargs,
             args <> [] \/ kwargs <> [] ->
             call_class T args kwargs = Raise TypeError).
  { intros args kwargs H. unfold call_class. rewrite N.
    destruct args as [|a args]; [|reflexivity].
    destruct kwargs as [|kv kwargs]; [|reflexivity].
    destruct H as [H|H]; now elim H. }
  split; [|split; [exact K|split]].
  - unfold call_class. rewrite N. cbn. now rewrite C, Tu.
  - unfold py_repr. rewrite R.
    change (pyformat (typename ++ "()") [] = Ok (typename ++ "()")%string).
    rewrite (pyformat_literal typename "()" []); [reflexivity|].
    apply identifier_percent_free.
    apply (gen_identifiers h typename str T generated). now left.
  - intros field v. unfold py_replace. rewrite X. unfold replace_body.
    rewrite (mangle_plain typename typename Pt), String.eqb_refl.
    destruct (mem typename ["self"; "field"; "value"]); [reflexivity|].
    cbn [negb]. destruct (mem typename ["dict"; "list"; "zip"]);
      [reflexivity|].
    apply K. right. discriminate.
Qed.

End GeneratedEdges.

(** ** Instances of the further properties *)

Lemma parsed_names_are_words_xy :
  In "y" (field_names " x, y ") /\
  nonempty "y" = true.
Proof.
  assert (I : In "y" (field_names " x, y ")) by (right; now left).
  split; [exact I|]. exact (proj1 (parsed_names_are_words " x, y " "y" I)).
Defined.

Lemma parse_of_join_comma :
  field_names (join ", " ["x"; "y"; "z"]) = ["x"; "y"; "z"].
Proof.
  exact (proj1 (parse_of_join ", " eq_refl eq_refl) ["x"; "y"; "z"] eq_refl).
Defined.

Lemma factory_outcome_order_property :
  NamedTuple_from (Frame true) cpython "T" (SpecStr "property x")
  = Failed 59 TypeError /\
  NamedTuple_from (Frame true) cpython "T" (SpecStr "x property")
  = Returned (generated_class cpython "T" ["x"; "property"]) /\
  NamedTuple_from (Frame false) cpython "T" (SpecStr "x property")
  = Failed 62 KeyError.
Proof.
  split; [|split].
  - exact (proj1 (factory_outcome_order (Frame true) cpython "T" "property x"
                    eq_refl eq_refl)).
  - exact (proj1 (factory_outcome_order (Frame true) cpython "T" "x property"
                    eq_refl eq_refl)).
  - exact (proj1 (factory_outcome_order (Frame false) cpython "T" "x property"
                    eq_refl eq_refl)).
Defined.

Lemma field_named_slots_T :
  NamedTuple cpython "T" (SpecStr "x __slots__") = Raise TypeError.
Proof.
  apply field_named_slots.
  - apply isalnum_spec. reflexivity.
  - reflexivity.
  - right. now left.
Defined.

Lemma unusable_type_name_empty :
  check_names "" (field_names "x y") = Ok tt /\
  NamedTuple cpython "" (SpecStr "x y") = Raise SyntaxError.
Proof.
  apply unusable_type_name.
  - apply isalnum_spec. reflexivity.
  - now left.
Defined.

Lemma field_named_cls_T :
  NamedTuple cpython "T" (SpecStr "x cls") = Raise SyntaxError.
Proof.
  apply field_named_cls.
  - apply isalnum_spec. reflexivity.
  - right. now left.
Defined.

Lemma underscores_only_rejected_T :
  NamedTuple cpython "_" (SpecStr "__ _") = Raise ValueError.
Proof. exact (underscores_only_rejected cpython "_" "__ _" eq_refl). Defined.

Lemma keyword_order_is_irrelevant_Point :
  call_class Point [] [("x", VInt 1); ("y", VInt 2)]
  = call_class Point [] [("y", VInt 2); ("x", VInt 1)].
Proof.
  apply keyword_order_is_irrelevant. intros k. simpl.
  destruct (String.eqb k "x") eqn:X; destruct (String.eqb k "y") eqn:Y;
    try reflexivity.
  apply String.eqb_eq in X. apply String.eqb_eq in Y. congruence.
Defined.

Lemma instances_have_declared_arity_Point :
  call_class Point [VInt 1] [("y", VInt 2)] = Ok [VInt 1; VInt 2] /\
  length [VInt 1; VInt 2] = length (field_names "x y").
Proof.
  split; [reflexivity|].
  exact (proj1 (instances_have_declared_arity cpython "Point" "x y" Point
                  eq_refl eq_refl eq_refl eq_refl eq_refl)
           [VInt 1] [("y", VInt 2)] _ eq_refl).
Defined.

Lemma constructor_succeeds_iff_Point :
  call_class Point [VInt 1] [("y", VInt 2)] = Ok [VInt 1; VInt 2] /\
  (forall e, call_class Point [VInt 1] [] = Raise e -> e = TypeError).
Proof.
  split.
  - apply (proj2 (proj1 (constructor_succeeds_iff cpython "Point" "x y"
                           Point eq_refl
                           [VInt 1] [("y", VInt 2)] [VInt 1; VInt 2]
                           eq_refl eq_refl eq_refl))).
    split; [simpl; lia|]. split; [reflexivity|]. split; [reflexivity|].
    split.
    + intros key [<-|[]]. now left.
    + intros [|[|[|j]]] name J E; simpl in J, E; try lia; try discriminate.
      now inversion E.
  - exact (proj2 (constructor_succeeds_iff cpython "Point" "x y" Point
                    eq_refl [VInt 1] [] [] eq_refl eq_refl eq_refl)).
Defined.

Lemma replace_overwrites_Point :
  (q <- py_replace Point [VInt 11; VInt 22] "x" (VInt 1) ;;
   py_replace Point q "x" (VInt 2))
  = py_replace Point [VInt 11; VInt 22] "x" (VInt 2) /\
  py_replace Point [VInt 11; VInt 22] "x" (VInt 11) = Ok [VInt 11; VInt 22].
Proof.
  destruct (replace_overwrites cpython "Point" "x y" Point eq_refl eq_refl
              [VInt 11; VInt 22] 0 "x" (VInt 1) (VInt 2)
              eq_refl eq_refl eq_refl eq_refl eq_refl) as [A _].
  destruct (replace_overwrites cpython "Point" "x y" Point eq_refl eq_refl
              [VInt 11; VInt 22] 0 "x" (VInt 11) (VInt 11)
              eq_refl eq_refl eq_refl eq_refl eq_refl) as [_ B].
  split; [exact A | exact (B eq_refl)].
Defined.

Lemma replace_commutes_Point :
  (q <- py_replace Point [VInt 11; VInt 22] "x" (VInt 1) ;;
   py_replace Point q "y" (VInt 2))
  = (q <- py_replace Point [VInt 11; VInt 22] "y" (VInt 2) ;;
     py_replace Point q "x" (VInt 1)).
Proof.
  apply (replace_commutes cpython "Point" "x y" Point eq_refl eq_refl
           [VInt 11; VInt 22] 0 1 "x" "y" (VInt 1) (VInt 2));
    try reflexivity.
  discriminate.
Defined.

Lemma repr_needs_declared_arity_Point :
  py_repr Point [VInt 11] = Raise TypeError /\
  py_repr Point [VInt 11; VInt 22; VInt 33] = Raise TypeError.
Proof.
  split; apply (repr_needs_declared_arity cpython "Point" "x y" Point
                  eq_refl eq_refl); simpl; lia.
Defined.

Lemma unknown_attribute_Point :
  getattr Point [VInt 11; VInt 22] "z" = Raise AttributeError.
Proof.
  apply (unknown_attribute cpython "Point" "x y" Point eq_refl eq_refl
           [VInt 11; VInt 22] "z" eq_refl);
    try reflexivity.
  intros [E|[E|[]]]; discriminate.
Defined.

Lemma docstring_lists_fields_Point :
  getattr Point [VInt 11; VInt 22] "__doc__"
  = Ok (ClassAttr (ADoc "Point(x, y)")) /\
  getattr (the_class (NamedTuple cpython "T" (SpecStr "x"))) [VInt 1] "__doc__"
  = Ok (ClassAttr (ADoc "T(x,)")).
Proof.
  split.
  - exact (docstring_lists_fields cpython "Point" "x y" Point eq_refl
             [VInt 11; VInt 22] eq_refl).
  - exact (docstring_lists_fields cpython "T" "x" _ eq_refl [VInt 1] eq_refl).
Defined.

Lemma module_attribute_T :
  getattr (the_class (NamedTuple cpython "T" (SpecStr "__module__ x")))
          [VInt 1; VInt 2] "__module__"
  = Ok (ClassAttr AModule).
Proof.
  exact (proj1 (module_attribute cpython "T" "__module__ x" _ eq_refl
                  [VInt 1; VInt 2] eq_refl eq_refl) eq_refl).
Defined.

Lemma class_without_fields_T :
  call_class (the_class (NamedTuple cpython "T" (SpecStr " , "))) [] []
  = Ok [] /\
  py_repr (the_class (NamedTuple cpython "T" (SpecStr " , "))) [] = Ok "T()".
Proof.
  destruct (class_without_fields cpython "T" " , " _ eq_refl eq_refl eq_refl
              eq_refl)
    as (A & _ & B & _); [discriminate | reflexivity|].
  split; [exact A | exact B].
Defined.
